(** * A shallow embedding of [s27597_2025-2.py]

    The script queries NCBI Entrez for the nucleotide records of a
    taxonomic ID, keeps the records whose sequence length lies in a range,
    writes them to a CSV file sorted by length and plots the lengths.

    Python values are modelled as follows:
    - a Biopython [SeqRecord] is a record with its [id], the length of its
      [seq] and its [description];
    - Python [int] is [Z], a [len] is [nat];
    - exceptions are values of [exn]; every Python statement that may raise
      runs in [M], a state-and-exception monad over [World], the part of
      the process state the script touches (the attributes of the
      [NCBIRetriever] object, standard output, the Entrez calls issued,
      the files written and the pyplot figure manager);
    - the remote service (Entrez) and the file system are the fields of a
      record [Env] of functions that answer each request or raise. *)

From Stdlib Require Import List String Ascii ZArith Lia Bool Arith.
From Stdlib Require Import DecimalNat.
Import ListNotations.
Open Scope Z_scope.

(** ** Records *)

Record SeqRecord := mkSeqRecord {
  id : string;
  seq_len : nat;          (* len(r.seq) *)
  description : string
}.

Definition SeqRecord_eq_dec (r1 r2 : SeqRecord) : {r1 = r2} + {r1 <> r2}.
Proof. decide equality; first [apply string_dec | apply Nat.eq_dec]. Defined.

(** ** [filter_records] (lines 41-42)

    [[ return [r for r in records if min_len <= len(r.seq) <= max_len] ]]
    The chained comparison is the conjunction of the two tests. *)

Definition in_range (min_len max_len : Z) (r : SeqRecord) : bool :=
  (min_len <=? Z.of_nat (seq_len r)) && (Z.of_nat (seq_len r) <=? max_len).

Fixpoint filter_records (records : list SeqRecord) (min_len max_len : Z)
  : list SeqRecord :=
  match records with
  | [] => []
  | r :: rs =>
      if in_range min_len max_len r
      then r :: filter_records rs min_len max_len
      else filter_records rs min_len max_len
  end.

(** Order-preserving sublists. *)
Inductive sublist {A : Type} : list A -> list A -> Prop :=
| sublist_nil : sublist [] []
| sublist_skip x l1 l2 : sublist l1 l2 -> sublist l1 (x :: l2)
| sublist_keep x l1 l2 : sublist l1 l2 -> sublist (x :: l1) (x :: l2).

(** ** Decimal digits, for [str(int)] and [int(str)] *)

Fixpoint digits (u : Decimal.uint) : list ascii :=
  match u with
  | Decimal.Nil => []
  | Decimal.D0 u => "0"%char :: digits u
  | Decimal.D1 u => "1"%char :: digits u
  | Decimal.D2 u => "2"%char :: digits u
  | Decimal.D3 u => "3"%char :: digits u
  | Decimal.D4 u => "4"%char :: digits u
  | Decimal.D5 u => "5"%char :: digits u
  | Decimal.D6 u => "6"%char :: digits u
  | Decimal.D7 u => "7"%char :: digits u
  | Decimal.D8 u => "8"%char :: digits u
  | Decimal.D9 u => "9"%char :: digits u
  end.

Definition digit_ctor (c : ascii) : option (Decimal.uint -> Decimal.uint) :=
  if Ascii.eqb c "0" then Some Decimal.D0
  else if Ascii.eqb c "1" then Some Decimal.D1
  else if Ascii.eqb c "2" then Some Decimal.D2
  else if Ascii.eqb c "3" then Some Decimal.D3
  else if Ascii.eqb c "4" then Some Decimal.D4
  else if Ascii.eqb c "5" then Some Decimal.D5
  else if Ascii.eqb c "6" then Some Decimal.D6
  else if Ascii.eqb c "7" then Some Decimal.D7
  else if Ascii.eqb c "8" then Some Decimal.D8
  else if Ascii.eqb c "9" then Some Decimal.D9
  else None.

Fixpoint undigits (l : list ascii) : option Decimal.uint :=
  match l with
  | [] => Some Decimal.Nil
  | c :: l' =>
      match digit_ctor c, undigits l' with
      | Some d, Some u => Some (d u)
      | _, _ => None
      end
  end.

(** [str(n)] for a non-negative [n]. *)
Definition str_nat (n : nat) : list ascii := digits (Nat.to_uint n).

(** [str(z)] / f-string formatting of an [int]. *)
Definition str_Z (z : Z) : string :=
  string_of_list_ascii
    ((if z <? 0 then ["-"%char] else []) ++ str_nat (Z.to_nat (Z.abs z))).

(** [int(s)] on a string of decimal digits with an optional sign; anything
    else raises [ValueError] (the surrounding whitespace, the digit
    separators and the non-ASCII digits [int] also accepts are not
    modelled). *)
Definition nat_of_digits (l : list ascii) : option nat :=
  match l with
  | [] => None
  | _ => option_map Nat.of_uint (undigits l)
  end.

Definition py_int (s : string) : option Z :=
  match list_ascii_of_string s with
  | "-"%char :: ds => option_map (fun n => - Z.of_nat n) (nat_of_digits ds)
  | "+"%char :: ds => option_map Z.of_nat (nat_of_digits ds)
  | ds => option_map Z.of_nat (nat_of_digits ds)
  end.

(** An answer made of ASCII characters none of which is a decimal digit.
    Python's [int()] raises [ValueError] on it: it needs at least one
    digit, and the only ASCII digits are [0]-[9]. *)
Definition is_ascii_digit (c : ascii) : bool :=
  match digit_ctor c with Some _ => true | None => false end.

Definition no_digit_ascii (s : string) : bool :=
  forallb (fun c => (Nat.ltb (nat_of_ascii c) 128) && negb (is_ascii_digit c))
          (list_ascii_of_string s).

(** ** Exceptions and the state-and-exception monad *)

(** Every exception the script can meet is a subclass of [Exception]:
    attribute and key lookups, indexing, [int()] and the errors raised by
    the libraries (HTTP and URL errors, parser errors, [OSError]). *)
Inductive exn :=
| AttributeError (name : string)
| KeyError (key : string)
| IndexError
| ValueError
| LibraryError (msg : string).

Definition exn_str (e : exn) : string :=
  match e with
  | AttributeError n => "'NCBIRetriever' object has no attribute '" ++ n ++ "'"
  | KeyError k => k
  | IndexError => "list index out of range"
  | ValueError => "invalid literal for int()"
  | LibraryError m => m
  end.

Inductive Result (A : Type) :=
| Ok (a : A)
| Err (e : exn).
Arguments Ok {A} a.
Arguments Err {A} e.

(** Attributes of an [NCBIRetriever] object; [None] is an attribute that
    was never assigned. *)
Record Attrs := mkAttrs {
  organism : option string;
  count : option Z;
  webenv : option string;
  query_key : option string
}.

Definition no_attrs : Attrs := mkAttrs None None None None.

(** One row of the DataFrame: accession, length, description. *)
Definition Row : Type := (string * nat * string)%type.

(** What is written to a file: the text of a CSV file, or a PNG image of
    the drawing calls made on a figure. *)
Inductive FileData :=
| CsvText (text : list ascii)
| PngImage (drawing : list string).

Record World := mkWorld {
  entrez_cfg : option (string * string * string);  (* Entrez.email, api_key, tool *)
  attrs : Attrs;
  stdout : list string;
  calls : list (Z * Z);          (* (retstart, retmax) of each nucleotide efetch *)
  files : list string;           (* paths written, in order *)
  figs : list nat;               (* open pyplot figures, current first *)
  next_fig : nat;
  canvas : list string           (* drawing calls on the current figure *)
}.

Definition init_world : World := mkWorld None no_attrs [] [] [] [] 1 [].

(** The services and libraries the script calls. *)
Record Env := mkEnv {
  (* Entrez.efetch(db="taxonomy", id=taxid, retmode="xml") read by
     Entrez.read: the "ScientificName" entry of each record, if present *)
  tax_efetch : string -> Result (list (option string));
  (* Entrez.esearch(db="nucleotide", term=..., usehistory="y", retmax=0)
     read by Entrez.read: the "Count", "WebEnv" and "QueryKey" entries *)
  esearch : string -> Result (option string * option string * option string);
  (* Entrez.efetch(db="nucleotide", rettype="gb", retmode="text", retstart,
     retmax, webenv, query_key) parsed by SeqIO.parse(handle, "gb") *)
  nuc_efetch : Z -> Z -> string -> string -> Result (list SeqRecord);
  (* writing a file: DataFrame.to_csv and plt.savefig *)
  write_file : string -> FileData -> Result unit;
  (* DataFrame.sort_values(by="length", ascending=False): pandas' default
     quicksort, whose order among equal lengths is numpy's *)
  sort_length_desc : list Row -> list Row
}.

Definition M (A : Type) : Type := World -> Result A * World.

Definition ret {A} (a : A) : M A := fun w => (Ok a, w).
Definition bind {A B} (m : M A) (k : A -> M B) : M B :=
  fun w => match m w with
           | (Ok a, w') => k a w'
           | (Err e, w') => (Err e, w')
           end.
Definition raise {A} (e : exn) : M A := fun w => (Err e, w).
Definition lift {A} (r : Result A) : M A := fun w => (r, w).
(** [try: m except Exception as e: h(e)] *)
Definition try_except {A} (m : M A) (h : exn -> M A) : M A :=
  fun w => match m w with
           | (Ok a, w') => (Ok a, w')
           | (Err e, w') => h e w'
           end.
Definition modify (f : World -> World) : M unit := fun w => (Ok tt, f w).
Definition gets {A} (f : World -> A) : M A := fun w => (Ok (f w), w).

Notation "x <- m ;; k" := (bind m (fun x => k))
  (at level 61, m at next level, right associativity).
Notation "m ;;; k" := (bind m (fun _ => k))
  (at level 61, right associativity).

(** Field updates of the world. *)
Definition set_attrs (f : Attrs -> Attrs) : M unit :=
  modify (fun w => mkWorld (entrez_cfg w) (f (attrs w)) (stdout w) (calls w)
                           (files w) (figs w) (next_fig w) (canvas w)).
Definition print (s : string) : M unit :=
  modify (fun w => mkWorld (entrez_cfg w) (attrs w) (stdout w ++ [s]) (calls w)
                           (files w) (figs w) (next_fig w) (canvas w)).
Definition log_call (c : Z * Z) : M unit :=
  modify (fun w => mkWorld (entrez_cfg w) (attrs w) (stdout w) (calls w ++ [c])
                           (files w) (figs w) (next_fig w) (canvas w)).
Definition add_file (path : string) : M unit :=
  modify (fun w => mkWorld (entrez_cfg w) (attrs w) (stdout w) (calls w)
                           (files w ++ [path]) (figs w) (next_fig w) (canvas w)).

(** [self.<name>]: an unassigned attribute raises [AttributeError]. *)
Definition get_attr (f : Attrs -> option string) (name : string) : M string :=
  a <- gets attrs;;
  match f a with
  | Some v => ret v
  | None => raise (AttributeError name)
  end.

(** [d[key]] on a dictionary read by [Entrez.read]. *)
Definition getitem {A} (v : option A) (key : string) : M A :=
  match v with
  | Some x => ret x
  | None => raise (KeyError key)
  end.

(** [int(s)]. *)
Definition int_ (s : string) : M Z :=
  match py_int s with
  | Some z => ret z
  | None => raise ValueError
  end.

Section Script.

Variable env : Env.

(** ** [NCBIRetriever.__init__] (lines 8-11): sets the module globals of
    [Entrez]. *)
Definition init_retriever (email api_key : string) : M unit :=
  modify (fun w => mkWorld (Some (email, api_key, "BioScriptEx10"%string))
                           no_attrs (stdout w) (calls w) (files w) (figs w)
                           (next_fig w) (canvas w)).

(** ** [NCBIRetriever.search] (lines 13-28) *)
Definition search (taxid : string) : M Z :=
  try_except
    (records <- lift (tax_efetch env taxid);;
     r0 <- (match records with
            | [] => raise IndexError
            | r :: _ => ret r
            end);;
     name <- getitem r0 "ScientificName";;
     set_attrs (fun a => mkAttrs (Some name) (count a) (webenv a) (query_key a));;;
     print ("Organism: " ++ name);;;
     res <- lift (esearch env ("txid" ++ taxid ++ "[Organism]"));;
     let '(count_s, webenv_s, query_key_s) := res in
     cs <- getitem count_s "Count";;
     c <- int_ cs;;
     set_attrs (fun a => mkAttrs (organism a) (Some c) (webenv a) (query_key a));;;
     we <- getitem webenv_s "WebEnv";;
     set_attrs (fun a => mkAttrs (organism a) (count a) (Some we) (query_key a));;;
     qk <- getitem query_key_s "QueryKey";;
     set_attrs (fun a => mkAttrs (organism a) (count a) (webenv a) (Some qk));;;
     ret c)
    (fun e => print ("Search error: " ++ exn_str e);;; ret 0).

(** ** [NCBIRetriever.fetch_records] (lines 30-39) *)

(** [range(start, stop, step)] for a positive [step]: the loop takes at
    most [stop - start] iterations, which bounds the fuel. *)
Fixpoint range_loop (fuel : nat) (cur stop step : Z) : list Z :=
  match fuel with
  | O => []
  | S f => if cur <? stop then cur :: range_loop f (cur + step) stop step else []
  end.

Definition py_range (start stop step : Z) : list Z :=
  range_loop (Z.to_nat (stop - start)) start stop step.

Definition batch_size : Z := 500.

(** The body of [for start in range(0, max_records, batch_size)]: the
    arguments are evaluated left to right, then the request is issued and
    its records are appended to [all_records]. *)
Fixpoint fetch_loop (max_records : Z) (starts : list Z)
  (all_records : list SeqRecord) : M (list SeqRecord) :=
  match starts with
  | [] => ret all_records
  | start :: rest =>
      let retmax := Z.min batch_size (max_records - start) in
      we <- get_attr webenv "webenv";;
      qk <- get_attr query_key "query_key";;
      log_call (start, retmax);;;
      recs <- lift (nuc_efetch env start retmax we qk);;
      fetch_loop max_records rest (all_records ++ recs)
  end.

Definition fetch_records (max_records : Z) : M (list SeqRecord) :=
  fetch_loop max_records (py_range 0 max_records batch_size) [].

End Script.

(** ** CSV text written by [DataFrame.to_csv(filename, index=False)]

    pandas writes through Python's [csv] writer with the [QUOTE_MINIMAL]
    policy, the delimiter [,], the double quote character (doubled inside
    a quoted field) and [os.linesep], a line feed, as line terminator: a field
    is quoted when it contains the delimiter, the quote character or a
    character of the line terminator.  Integers are written with [str]. *)

Definition LF : ascii := "010"%char.
Definition CR : ascii := "013"%char.
Definition COMMA : ascii := ","%char.
Definition QUOTE : ascii := "034"%char.

Definition special (c : ascii) : bool :=
  Ascii.eqb c COMMA || Ascii.eqb c QUOTE || Ascii.eqb c LF.

Definition needs_quoting (f : list ascii) : bool := existsb special f.

Fixpoint double_quotes (f : list ascii) : list ascii :=
  match f with
  | [] => []
  | c :: f' => if Ascii.eqb c QUOTE then QUOTE :: QUOTE :: double_quotes f'
               else c :: double_quotes f'
  end.

Definition csv_field (f : list ascii) : list ascii :=
  if needs_quoting f then QUOTE :: double_quotes f ++ [QUOTE] else f.

Definition csv_line (fields : list (list ascii)) : list ascii :=
  match fields with
  | [] => [LF]
  | f :: fs => csv_field f ++ List.concat (map (fun g => COMMA :: csv_field g) fs) ++ [LF]
  end.

Definition row_fields (r : Row) : list (list ascii) :=
  let '(acc, len, desc) := r in
  [list_ascii_of_string acc; str_nat len; list_ascii_of_string desc].

Definition header : list (list ascii) :=
  map list_ascii_of_string ["accession"; "length"; "description"]%string.

Definition to_csv_text (df : list Row) : list ascii :=
  csv_line header ++ List.concat (map (fun r => csv_line (row_fields r)) df).

(** ** Reading a CSV text back

    The state machine of Python's [csv.reader] on a file opened with
    [newline=''] (dialect [excel]): a line feed, a carriage return or the
    pair CR LF ends a record outside quotes, a blank line is an empty
    record, and end of data inside a quoted field is an error. *)

Inductive rstate := StartRecord | AfterCR | StartField | InField | InQuoted | QuoteInQuoted.

Record reader := mkReader {
  rst : rstate;
  rfield : list ascii;
  rrow : list (list ascii);
  rrows : list (list (list ascii))
}.

Definition reader0 : reader := mkReader StartRecord [] [] [].

Definition save_field (r : reader) (s : rstate) : reader :=
  mkReader s [] (rrow r ++ [rfield r]) (rrows r).
Definition end_record (r : reader) (s : rstate) : reader :=
  mkReader s [] [] (rrows r ++ [rrow r ++ [rfield r]]).
Definition push_char (r : reader) (s : rstate) (c : ascii) : reader :=
  mkReader s (rfield r ++ [c]) (rrow r) (rrows r).

Definition start_field_step (r : reader) (c : ascii) : reader :=
  if Ascii.eqb c QUOTE then mkReader InQuoted [] (rrow r) (rrows r)
  else if Ascii.eqb c COMMA then save_field r StartField
  else if Ascii.eqb c LF then end_record r StartRecord
  else if Ascii.eqb c CR then end_record r AfterCR
  else push_char r InField c.

Definition start_record_step (r : reader) (c : ascii) : reader :=
  if Ascii.eqb c LF then mkReader StartRecord [] [] (rrows r ++ [[]])
  else if Ascii.eqb c CR then mkReader AfterCR [] [] (rrows r ++ [[]])
  else start_field_step r c.

Definition rstep (r : reader) (c : ascii) : reader :=
  match rst r with
  | StartRecord => start_record_step r c
  | AfterCR => if Ascii.eqb c LF then mkReader StartRecord [] [] (rrows r)
               else start_record_step r c
  | StartField => start_field_step r c
  | InField =>
      if Ascii.eqb c COMMA then save_field r StartField
      else if Ascii.eqb c LF then end_record r StartRecord
      else if Ascii.eqb c CR then end_record r AfterCR
      else push_char r InField c
  | InQuoted =>
      if Ascii.eqb c QUOTE then mkReader QuoteInQuoted (rfield r) (rrow r) (rrows r)
      else push_char r InQuoted c
  | QuoteInQuoted =>
      if Ascii.eqb c QUOTE then push_char r InQuoted c
      else if Ascii.eqb c COMMA then save_field r StartField
      else if Ascii.eqb c LF then end_record r StartRecord
      else if Ascii.eqb c CR then end_record r AfterCR
      else push_char r InField c
  end.

Definition rfinish (r : reader) : option (list (list (list ascii))) :=
  match rst r with
  | StartRecord | AfterCR => Some (rrows r)
  | StartField | InField | QuoteInQuoted => Some (rrows r ++ [rrow r ++ [rfield r]])
  | InQuoted => None
  end.

Definition parse_csv (text : list ascii) : option (list (list (list ascii))) :=
  rfinish (fold_left rstep text reader0).

(** The table read back: the header, then one row per record with its
    length read by [int]. *)
Definition row_of_fields (fs : list (list ascii)) : option Row :=
  match fs with
  | [acc; len; desc] =>
      match nat_of_digits len with
      | Some n => Some (string_of_list_ascii acc, n, string_of_list_ascii desc)
      | None => None
      end
  | _ => None
  end.

Fixpoint rows_of_records (rs : list (list (list ascii))) : option (list Row) :=
  match rs with
  | [] => Some []
  | fs :: rs' =>
      match row_of_fields fs, rows_of_records rs' with
      | Some r, Some t => Some (r :: t)
      | _, _ => None
      end
  end.

Definition read_table (text : list ascii) : option (list Row) :=
  match parse_csv text with
  | Some (h :: rs) => if list_eq_dec (list_eq_dec ascii_dec) h header
                      then rows_of_records rs else None
  | _ => None
  end.

Section Output.

Variable env : Env.

(** [files] lists the files written to the end; a write that raises is
    not listed, whether or not it created or truncated the target first. *)
Definition write (path : string) (data : FileData) : M unit :=
  lift (write_file env path data);;; add_file path.

(** ** [save_csv] (lines 44-53).  [pd.DataFrame] of an empty list has no
    column, so [sort_values(by="length")] raises [KeyError]. *)
Definition save_csv (records : list SeqRecord) (filename : string) : M (list Row) :=
  let data := map (fun r => (id r, seq_len r, description r)) records in
  match data with
  | [] => raise (KeyError "length")
  | _ =>
      let df := sort_length_desc env data in
      write filename (CsvText (to_csv_text df));;;
      ret df
  end.

(** The pyplot figure manager. *)
Definition plt_figure : M unit :=
  modify (fun w => mkWorld (entrez_cfg w) (attrs w) (stdout w) (calls w)
                           (files w) (next_fig w :: figs w) (S (next_fig w)) []).
Definition draw (op : string) : M unit :=
  modify (fun w => mkWorld (entrez_cfg w) (attrs w) (stdout w) (calls w)
                           (files w) (figs w) (next_fig w) (canvas w ++ [op])).
Definition plt_savefig (path : string) : M unit :=
  c <- gets canvas;;
  write path (PngImage c).
(** [plt.close()] closes the current figure; the next open one becomes current. *)
Definition plt_close : M unit :=
  modify (fun w => mkWorld (entrez_cfg w) (attrs w) (stdout w) (calls w)
                           (files w) (tl (figs w)) (next_fig w) (canvas w)).

(** ** [plot_lengths] (lines 55-65) *)
Definition plot_lengths (df : list Row) (png_filename : string) : M unit :=
  let df_sorted := sort_length_desc env df in
  plt_figure;;;
  draw ("plot " ++ String.concat " " (map (fun r => fst (fst r)) df_sorted));;;
  draw "xticks(rotation=90, fontsize=6)";;;
  draw "xlabel(Accession)";;;
  draw "ylabel(Sequence Length)";;;
  draw "title(Sequence Lengths (sorted))";;;
  draw "tight_layout";;;
  plt_savefig png_filename;;;
  plt_close.

(** ** [main] (lines 67-94), given the five lines typed at the prompts.
    [main_after_search] is the part of the body after
    [count = retriever.search(taxid)] (lines 76-94). *)
Definition main_after_search (taxid : string) (min_len max_len : Z) (c : Z) : M unit :=
  if c =? 0 then print "No results."
  else
    print ("Fetching up to 1000 records out of " ++ str_Z c ++ " available...");;;
    raw_records <- fetch_records env 1000;;
    let filtered := filter_records raw_records min_len max_len in
    match filtered with
    | [] => print "No records match length criteria."
    | _ =>
        let csv_name := ("taxid_" ++ taxid ++ "_filtered.csv")%string in
        let png_name := ("taxid_" ++ taxid ++ "_plot.png")%string in
        df <- save_csv filtered csv_name;;
        plot_lengths df png_name;;;
        print ("Saved " ++ str_Z (Z.of_nat (List.length filtered)) ++ " records to " ++ csv_name);;;
        print ("Plot saved as " ++ png_name)
    end.

Definition main (email api_key taxid min_s max_s : string) : M unit :=
  print "Enter NCBI email: ";;;
  print "Enter NCBI API key: ";;;
  print "Enter TaxID: ";;;
  print "Min sequence length: ";;;
  min_len <- int_ min_s;;
  print "Max sequence length: ";;;
  max_len <- int_ max_s;;
  init_retriever email api_key;;;
  c <- search env taxid;;
  main_after_search taxid min_len max_len c.

End Output.

(** A field the CSV round trip can carry: either it is quoted, or it
    holds no carriage return. *)
Definition cr_safe (f : list ascii) : Prop := needs_quoting f = true \/ ~ In CR f.

(** ** Concrete environments

    Answers of the service used to run the script on explicit inputs:
    the taxonomy knows one organism, the search finds 1200 records and the
    first batch holds three records of lengths 1200, 300 and 800; files
    are written, except where stated.  The sort is an insertion sort by
    decreasing length, which keeps equal lengths in their input order. *)

Fixpoint insert_desc (r : Row) (l : list Row) : list Row :=
  match l with
  | [] => [r]
  | x :: l' => if (snd (fst x) <=? snd (fst r))%nat then r :: l else x :: insert_desc r l'
  end.

Fixpoint insertion_sort_desc (l : list Row) : list Row :=
  match l with
  | [] => []
  | r :: l' => insert_desc r (insertion_sort_desc l')
  end.

Definition example_records : list SeqRecord :=
  [mkSeqRecord "NC_1" 1200 "first"; mkSeqRecord "NC_2" 300 "second";
   mkSeqRecord "NC_3" 800 "third"].

Definition env_example : Env := mkEnv
  (fun _ => Ok [Some "Escherichia coli"%string])
  (fun _ => Ok (Some "1200"%string, Some "WE1"%string, Some "1"%string))
  (fun start _ _ _ => Ok (if start =? 0 then example_records else []))
  (fun _ _ => Ok tt)
  insertion_sort_desc.

(** The taxonomy does not know the ID: it answers an empty record list. *)
Definition env_unknown_taxid : Env := mkEnv
  (fun _ => Ok [])
  (esearch env_example) (nuc_efetch env_example) (write_file env_example)
  insertion_sort_desc.

(** Saving the image fails. *)
Definition env_savefig_fails : Env := mkEnv
  (tax_efetch env_example) (esearch env_example) (nuc_efetch env_example)
  (fun path _ => if String.eqb path "plot.png" then Err (LibraryError "No space left on device")
                 else Ok tt)
  insertion_sort_desc.

(** The request of the second batch fails. *)
Definition env_second_batch_fails : Env := mkEnv
  (tax_efetch env_example) (esearch env_example)
  (fun start r we qk => if start =? 500
                        then Err (LibraryError "HTTP Error 500: Internal Server Error")
                        else nuc_efetch env_example start r we qk)
  (write_file env_example)
  insertion_sort_desc.

(** The history search answers no "QueryKey" entry. *)
Definition env_no_query_key : Env := mkEnv
  (tax_efetch env_example)
  (fun _ => Ok (Some "1200"%string, Some "WE1"%string, None))
  (nuc_efetch env_example) (write_file env_example)
  insertion_sort_desc.

(** A retriever after a successful search in [env_example]. *)
Definition world_after_search : World :=
  mkWorld None (mkAttrs (Some "Escherichia coli"%string) (Some 1200) (Some "WE1"%string)
                        (Some "1"%string))
          [] [] [] [] 1 [].

(** * Properties *)

(** ** Filtering *)

Lemma in_range_spec (lo hi : Z) (r : SeqRecord) :
  in_range lo hi r = true <-> lo <= Z.of_nat (seq_len r) <= hi.
Proof.
  unfold in_range. rewrite andb_true_iff, !Z.leb_le. reflexivity.
Qed.

Lemma filter_records_sublist (records : list SeqRecord) (lo hi : Z) :
  sublist (filter_records records lo hi) records.
Proof.
  induction records as [|r rs IH]; simpl.
  - constructor.
  - destruct (in_range lo hi r); constructor; exact IH.
Qed.

Lemma filter_records_count (records : list SeqRecord) (lo hi : Z) (r : SeqRecord) :
  count_occ SeqRecord_eq_dec (filter_records records lo hi) r =
  if in_range lo hi r then count_occ SeqRecord_eq_dec records r else 0%nat.
Proof.
  induction records as [|x rs IH]; simpl.
  - destruct (in_range lo hi r); reflexivity.
  - destruct (in_range lo hi x) eqn:Ex; simpl;
      destruct (SeqRecord_eq_dec x r) as [->|Hne]; rewrite ?Ex in IH |- *;
      rewrite ?IH; try reflexivity;
      destruct (in_range lo hi r); reflexivity.
Qed.

Lemma filter_records_In (records : list SeqRecord) (lo hi : Z) (r : SeqRecord) :
  In r (filter_records records lo hi) <->
  In r records /\ lo <= Z.of_nat (seq_len r) <= hi.
Proof.
  rewrite <- in_range_spec.
  induction records as [|x rs IH]; simpl.
  - tauto.
  - destruct (in_range lo hi x) eqn:Ex; simpl; rewrite IH;
      split; intuition (subst; congruence).
Qed.

(** [C1] [filter_records records lo hi] keeps exactly the records whose
    length lies in [lo, hi]: it is an order-preserving sublist of
    [records], each record occurs in it as often as in [records] when its
    length is in range and not at all otherwise, and it is the empty list
    when no record is in range.  (It is a pure function of its inputs.) *)
Theorem filter_records_correct (records : list SeqRecord) (lo hi : Z) :
  sublist (filter_records records lo hi) records /\
  (forall r, count_occ SeqRecord_eq_dec (filter_records records lo hi) r =
             if in_range lo hi r then count_occ SeqRecord_eq_dec records r else 0%nat) /\
  (forall r, In r (filter_records records lo hi) <->
             In r records /\ lo <= Z.of_nat (seq_len r) <= hi) /\
  ((forall r, In r records -> ~ (lo <= Z.of_nat (seq_len r) <= hi)) ->
   filter_records records lo hi = []).
Proof.
  split; [apply filter_records_sublist|].
  split; [intro r; apply filter_records_count|].
  split; [intro r; apply filter_records_In|].
  intros Hnone.
  destruct (filter_records records lo hi) as [|r rs] eqn:E; [reflexivity|].
  exfalso. assert (Hr : In r (filter_records records lo hi)) by (rewrite E; left; reflexivity).
  apply filter_records_In in Hr. destruct Hr as [Hin Hb]. exact (Hnone r Hin Hb).
Qed.

(** ** Paging in [fetch_records] *)

Lemma range_loop_seq (step stop : Z) (Hstep : 0 < step) (n : nat) :
  forall (fuel : nat) (cur : Z),
  (n <= fuel)%nat ->
  (forall k, (k < n)%nat -> cur + Z.of_nat k * step < stop) ->
  stop <= cur + Z.of_nat n * step ->
  range_loop fuel cur stop step = map (fun k => cur + Z.of_nat k * step) (seq 0 n).
Proof.
  induction n as [|n IH]; intros fuel cur Hfuel Hlt Hge.
  - destruct fuel as [|fuel]; simpl; [reflexivity|].
    replace (cur <? stop) with false by (symmetry; apply Z.ltb_ge; lia).
    reflexivity.
  - destruct fuel as [|fuel]; [lia|].
    assert (Hcur : cur < stop) by (specialize (Hlt 0%nat); lia).
    simpl. replace (cur <? stop) with true by (symmetry; apply Z.ltb_lt; exact Hcur).
    rewrite (IH fuel (cur + step)).
    + f_equal; [lia|].
      rewrite <- seq_shift, map_map. apply map_ext. intros k. lia.
    + lia.
    + intros k Hk. specialize (Hlt (S k)). lia.
    + lia.
Qed.

Lemma py_range_batches (m : Z) (Hm : 0 < m) :
  py_range 0 m batch_size =
  map (fun k => 500 * Z.of_nat k) (seq 0 (Z.to_nat ((m + 499) / 500))).
Proof.
  unfold py_range, batch_size.
  pose proof (Z.div_mod (m + 499) 500 ltac:(lia)) as Hdm.
  pose proof (Z.mod_pos_bound (m + 499) 500 ltac:(lia)) as Hmod.
  set (q := (m + 499) / 500) in *.
  set (r := (m + 499) mod 500) in *.
  assert (Hq : 0 <= q) by lia.
  rewrite (range_loop_seq 500 m ltac:(lia) (Z.to_nat q)).
  - apply map_ext. intros k. lia.
  - lia.
  - intros k Hk. lia.
  - lia.
Qed.

Lemma fetch_loop_run (env : Env) (m : Z) (we qk : string)
  (Hok : forall s r, exists recs, nuc_efetch env s r we qk = Ok recs)
  (starts : list Z) :
  forall acc w,
  webenv (attrs w) = Some we -> query_key (attrs w) = Some qk ->
  exists batches,
    fetch_loop env m starts acc w =
      (Ok (acc ++ List.concat batches),
       mkWorld (entrez_cfg w) (attrs w) (stdout w)
         (calls w ++ map (fun s => (s, Z.min batch_size (m - s))) starts)
         (files w) (figs w) (next_fig w) (canvas w)) /\
    Forall2 (fun s recs => nuc_efetch env s (Z.min batch_size (m - s)) we qk = Ok recs)
      starts batches.
Proof.
  induction starts as [|s rest IH]; intros acc w Hwe Hqk.
  - exists []. split; [|constructor].
    simpl. rewrite !app_nil_r. destruct w; reflexivity.
  - destruct (Hok s (Z.min batch_size (m - s))) as [recs Hr].
    set (w1 := mkWorld (entrez_cfg w) (attrs w) (stdout w)
                 (calls w ++ [(s, Z.min batch_size (m - s))])
                 (files w) (figs w) (next_fig w) (canvas w)).
    destruct (IH (acc ++ recs) w1 Hwe Hqk) as [batches [Hrun Hf2]].
    exists (recs :: batches). split; [|constructor; assumption].
    simpl fetch_loop. unfold get_attr, gets, ret, log_call, modify, lift, bind.
    simpl. rewrite Hwe, Hqk, Hr. fold w1. rewrite Hrun.
    simpl. rewrite <- !app_assoc. reflexivity.
Qed.

(** [C3] [fetch_records m] with [m > 0], on a retriever whose search has
    stored the session tokens and a service that answers every request,
    issues one efetch per batch of 500: the [k]-th call has
    [retstart = 500 k] and [retmax = min(500, m - 500 k)], for [k] below
    [ceil(m / 500)]; for [m = 1200] these are the three calls [(0, 500)],
    [(500, 500)] and [(1000, 200)]. *)
Theorem fetch_records_paging (env : Env) (m : Z) (w : World) (we qk : string)
  (Hm : 0 < m)
  (Hwe : webenv (attrs w) = Some we) (Hqk : query_key (attrs w) = Some qk)
  (Hok : forall s r, exists recs, nuc_efetch env s r we qk = Ok recs) :
  (exists recs, fst (fetch_records env m w) = Ok recs) /\
  calls (snd (fetch_records env m w)) =
    calls w ++ map (fun k => (500 * Z.of_nat k, Z.min 500 (m - 500 * Z.of_nat k)))
                   (seq 0 (Z.to_nat ((m + 499) / 500))) /\
  calls (snd (fetch_records env 1200 w)) =
    calls w ++ [(0, 500); (500, 500); (1000, 200)].
Proof.
  unfold fetch_records.
  destruct (fetch_loop_run env m we qk Hok (py_range 0 m batch_size) [] w Hwe Hqk)
    as [b [Hrun _]].
  destruct (fetch_loop_run env 1200 we qk Hok (py_range 0 1200 batch_size) [] w Hwe Hqk)
    as [b' [Hrun' _]].
  rewrite Hrun, Hrun'. simpl.
  split; [eexists; reflexivity|]. split.
  - rewrite py_range_batches by exact Hm. rewrite map_map. reflexivity.
  - reflexivity.
Qed.

(** ** [search] *)

Definition search_term (taxid : string) : string := "txid" ++ taxid ++ "[Organism]".
Arguments search_term : simpl never.

(** The lookups of [search] all succeed. *)
Definition search_ok (env : Env) (taxid : string)
  (name : string) (cs we qk : string) (c : Z) : Prop :=
  (exists rest, tax_efetch env taxid = Ok (Some name :: rest)) /\
  esearch env (search_term taxid) = Ok (Some cs, Some we, Some qk) /\
  py_int cs = Some c.

Ltac search_failure_with e :=
  exists e; eexists; eexists; split;
  [ rewrite <- ?app_assoc; reflexivity | reflexivity ].

Ltac search_failure :=
  right; split;
  [ first [ search_failure_with IndexError
          | search_failure_with (KeyError "ScientificName")
          | search_failure_with (KeyError "Count")
          | search_failure_with (KeyError "WebEnv")
          | search_failure_with (KeyError "QueryKey")
          | search_failure_with ValueError
          | match goal with e : exn |- _ => search_failure_with e end ]
  | intros (? & ? & ? & ? & ? & [[? ?] [? ?]]); congruence ].

Lemma search_cases (env : Env) (taxid : string) (w : World) :
  (exists name cs we qk c,
     search_ok env taxid name cs we qk c /\
     search env taxid w =
       (Ok c, mkWorld (entrez_cfg w) (mkAttrs (Some name) (Some c) (Some we) (Some qk))
                (stdout w ++ ["Organism: " ++ name]%string)
                (calls w) (files w) (figs w) (next_fig w) (canvas w))) \/
  ((exists e a out,
      search env taxid w =
        (Ok 0, mkWorld (entrez_cfg w) a (stdout w ++ out) (calls w) (files w)
                 (figs w) (next_fig w) (canvas w)) /\
      last out ""%string = ("Search error: " ++ exn_str e)%string) /\
   ~ (exists name cs we qk c, search_ok env taxid name cs we qk c)).
Proof.
  unfold search, search_ok, try_except, getitem, int_, set_attrs,
    print, modify, lift, ret, raise, bind.
  change ("txid" ++ taxid ++ "[Organism]")%string with (search_term taxid).
  destruct (tax_efetch env taxid) as [[|[name|] rest]|e] eqn:Htax; simpl;
    try search_failure.
  destruct (esearch env (search_term taxid)) as [[[[cs|] [we|]] [qk|]]|e]
    eqn:Hes; simpl; try search_failure.
  - destruct (py_int cs) as [c|] eqn:Hc; simpl; try search_failure.
    left. exists name, cs, we, qk, c. split.
    + split; [eexists; reflexivity|]. split; [reflexivity|exact Hc].
    + reflexivity.
  - destruct (py_int cs) as [c|] eqn:Hc; simpl; search_failure.
  - destruct (py_int cs) as [c|] eqn:Hc; simpl; search_failure.
  - destruct (py_int cs) as [c|] eqn:Hc; simpl; search_failure.
Qed.

Lemma last_app_cons {A : Type} (l out : list A) (d : A) :
  out <> [] -> last (l ++ out) d = last out d.
Proof.
  intros Hne. induction l as [|x l IH]; [reflexivity|].
  simpl. rewrite IH. destruct l as [|y l]; simpl.
  - destruct out; [contradiction|reflexivity].
  - destruct (l ++ out) eqn:E; [apply app_eq_nil in E; destruct E; subst; contradiction|].
    reflexivity.
Qed.

Lemma search_ok_unique (env : Env) (taxid : string) n1 cs1 we1 qk1 c1 n2 cs2 we2 qk2 c2 :
  search_ok env taxid n1 cs1 we1 qk1 c1 -> search_ok env taxid n2 cs2 we2 qk2 c2 ->
  n1 = n2 /\ we1 = we2 /\ qk1 = qk2 /\ c1 = c2.
Proof.
  intros [[r1 H1] [E1 P1]] [[r2 H2] [E2 P2]].
  rewrite H1 in H2. rewrite E1 in E2.
  injection H2 as -> _. injection E2 as -> -> ->.
  rewrite P1 in P2. injection P2 as ->. auto.
Qed.

(** [C6] [search] never raises: every error of the taxonomy lookup or of
    the history-enabled search (a failing request, a record list without
    a first element, a missing entry, a count that is not an integer) is
    caught, logged as a [Search error: ...] line, and turned into the
    result [0].  When every lookup succeeds it returns the count and the
    retriever holds the organism name, the count and the session token
    pair [(WebEnv, QueryKey)]. *)
Theorem search_catches_errors (env : Env) (taxid : string) (w : World) :
  (exists c, fst (search env taxid w) = Ok c) /\
  (forall name cs we qk c, search_ok env taxid name cs we qk c ->
     fst (search env taxid w) = Ok c /\
     attrs (snd (search env taxid w)) = mkAttrs (Some name) (Some c) (Some we) (Some qk)) /\
  ((~ exists name cs we qk c, search_ok env taxid name cs we qk c) ->
     fst (search env taxid w) = Ok 0 /\
     exists e, last (stdout (snd (search env taxid w))) ""%string =
               ("Search error: " ++ exn_str e)%string).
Proof.
  destruct (search_cases env taxid w)
    as [(name & cs & we & qk & c & Hok & Hrun) | ((e & a & out & Hrun & Hlast) & Hno)];
    rewrite Hrun; simpl.
  - split; [eexists; reflexivity|]. split.
    + intros name' cs' we' qk' c' Hok'.
      destruct (search_ok_unique env taxid _ _ _ _ _ _ _ _ _ _ Hok Hok') as (-> & -> & -> & ->).
      split; reflexivity.
    + intros Hno. exfalso. apply Hno. exists name, cs, we, qk, c. exact Hok.
  - split; [eexists; reflexivity|]. split.
    + intros name cs we qk c Hok. exfalso. apply Hno. exists name, cs, we, qk, c. exact Hok.
    + intros _. split; [reflexivity|]. exists e.
      rewrite last_app_cons; [exact Hlast|].
      intros ->. discriminate Hlast.
Qed.

(** ** [main] *)

Lemma search_result_indep (env : Env) (taxid : string) (w w' : World) :
  fst (search env taxid w) = fst (search env taxid w').
Proof.
  destruct (search_cases env taxid w)
    as [(n1 & cs1 & we1 & qk1 & c1 & Hok1 & Hrun1) | ((e1 & a1 & o1 & Hrun1 & _) & Hno1)];
  destruct (search_cases env taxid w')
    as [(n2 & cs2 & we2 & qk2 & c2 & Hok2 & Hrun2) | ((e2 & a2 & o2 & Hrun2 & _) & Hno2)];
  rewrite Hrun1, Hrun2; simpl.
  - destruct (search_ok_unique env taxid _ _ _ _ _ _ _ _ _ _ Hok1 Hok2) as (_ & _ & _ & ->).
    reflexivity.
  - exfalso. apply Hno2. do 5 eexists. exact Hok1.
  - exfalso. apply Hno1. do 5 eexists. exact Hok2.
  - reflexivity.
Qed.

Lemma filter_records_app (l1 l2 : list SeqRecord) (lo hi : Z) :
  filter_records (l1 ++ l2) lo hi = filter_records l1 lo hi ++ filter_records l2 lo hi.
Proof.
  induction l1 as [|r l1 IH]; simpl; [reflexivity|].
  destruct (in_range lo hi r); simpl; rewrite IH; reflexivity.
Qed.

Lemma filter_records_concat_nil {B : Type} (P : B -> list SeqRecord -> Prop)
  (lo hi : Z) (starts : list B) (batches : list (list SeqRecord)) :
  Forall2 P starts batches ->
  (forall s b, P s b -> filter_records b lo hi = []) ->
  filter_records (List.concat batches) lo hi = [].
Proof.
  intros H2 Hnil. induction H2 as [|s b ss bs Hp _ IH]; simpl; [reflexivity|].
  rewrite filter_records_app, (Hnil s b Hp), IH. reflexivity.
Qed.

Ltac world_red :=
  cbn [bind ret raise lift gets modify print init_retriever Z.eqb
       entrez_cfg attrs stdout calls files figs next_fig canvas fst snd].

(** Runs [main] up to the call of [search], which it replaces by one of
    the two outcomes of [search_cases]. *)
Ltac run_main_to_search env taxid Hlo Hhi Hres Hind :=
  unfold main, int_; rewrite Hlo, Hhi; world_red;
  match goal with |- context [bind (search env taxid) _ ?w1] =>
    cbv beta delta [bind];
    pose proof (search_result_indep env taxid w1 init_world) as Hind;
    rewrite Hres in Hind;
    destruct (search_cases env taxid w1)
      as [(n & cs & we & qk & c' & _ & Hrun) | ((e & a & out & Hrun & _) & _)];
    rewrite Hrun in Hind |- *; cbn [fst] in Hind; unfold main_after_search; world_red
  end.

(** [C4] When [search] returns [0], [main] prints [No results.] and
    returns normally without writing any file, opening any figure or
    fetching any record. *)
Theorem main_no_results (env : Env) (email api_key taxid min_s max_s : string)
  (lo hi : Z) (w0 : World)
  (Hlo : py_int min_s = Some lo) (Hhi : py_int max_s = Some hi)
  (Hzero : fst (search env taxid init_world) = Ok 0) :
  fst (main env email api_key taxid min_s max_s w0) = Ok tt /\
  files (snd (main env email api_key taxid min_s max_s w0)) = files w0 /\
  figs (snd (main env email api_key taxid min_s max_s w0)) = figs w0 /\
  calls (snd (main env email api_key taxid min_s max_s w0)) = calls w0 /\
  last (stdout (snd (main env email api_key taxid min_s max_s w0))) ""%string =
    "No results."%string.
Proof.
  assert (Hrun_main : exists w', main env email api_key taxid min_s max_s w0 = (Ok tt, w') /\
            files w' = files w0 /\ figs w' = figs w0 /\ calls w' = calls w0 /\
            last (stdout w') ""%string = "No results."%string).
  { run_main_to_search env taxid Hlo Hhi Hzero Hind.
    - injection Hind as ->. world_red.
      eexists. split; [reflexivity|]. world_red.
      repeat (split; [reflexivity|]). rewrite last_app_cons; [reflexivity|discriminate].
    - eexists. split; [reflexivity|]. world_red.
      repeat (split; [reflexivity|]). rewrite last_app_cons; [reflexivity|discriminate]. }
  destruct Hrun_main as (w' & -> & H1 & H2 & H3 & H4). simpl. auto.
Qed.

(** [C5] When [search] finds records and every fetched batch holds no
    record whose length lies in [lo, hi], [main] prints
    [No records match length criteria.] and returns normally without
    writing any file or opening any figure. *)
Theorem main_no_matches (env : Env) (email api_key taxid min_s max_s : string)
  (lo hi c : Z) (w0 : World)
  (Hlo : py_int min_s = Some lo) (Hhi : py_int max_s = Some hi)
  (Hfound : fst (search env taxid init_world) = Ok c) (Hc : c <> 0)
  (Hnone : forall s r we qk, exists recs,
             nuc_efetch env s r we qk = Ok recs /\ filter_records recs lo hi = []) :
  fst (main env email api_key taxid min_s max_s w0) = Ok tt /\
  files (snd (main env email api_key taxid min_s max_s w0)) = files w0 /\
  figs (snd (main env email api_key taxid min_s max_s w0)) = figs w0 /\
  last (stdout (snd (main env email api_key taxid min_s max_s w0))) ""%string =
    "No records match length criteria."%string.
Proof.
  assert (Hrun_main : exists w', main env email api_key taxid min_s max_s w0 = (Ok tt, w') /\
            files w' = files w0 /\ figs w' = figs w0 /\
            last (stdout w') ""%string = "No records match length criteria."%string).
  { run_main_to_search env taxid Hlo Hhi Hfound Hind.
    - injection Hind as ->.
      replace (c =? 0) with false by (symmetry; apply Z.eqb_neq; exact Hc).
      world_red.
      match goal with |- context [bind (fetch_records env 1000) _ ?w2] =>
        cbv beta delta [bind];
        assert (Hok : forall s r, exists recs, nuc_efetch env s r we qk = Ok recs)
          by (intros s r; destruct (Hnone s r we qk) as [recs [Hr _]]; eauto);
        destruct (fetch_loop_run env 1000 we qk Hok (py_range 0 1000 batch_size) [] w2
                    eq_refl eq_refl) as [batches [Hrun2 Hf2]];
        unfold fetch_records; rewrite Hrun2; world_red
      end.
      rewrite app_nil_l, (filter_records_concat_nil _ lo hi _ _ Hf2).
      + world_red. eexists. split; [reflexivity|]. world_red.
        repeat (split; [reflexivity|]). rewrite last_app_cons; [reflexivity|discriminate].
      + intros s b Hb. destruct (Hnone s (Z.min batch_size (1000 - s)) we qk)
          as [recs [Hr Hfl]].
        rewrite Hb in Hr. injection Hr as ->. exact Hfl.
    - exfalso. injection Hind as Hc0. apply Hc. symmetry. exact Hc0. }
  destruct Hrun_main as (w' & -> & H1 & H2 & H3). simpl. auto.
Qed.

(** ** [plot_lengths] and the figure *)

(** [C8] (as stated: the figure is closed even when saving the image
    raises) fails: [plt.close()] follows [plt.savefig] with no [finally],
    so when saving raises, the figure opened by [plot_lengths] stays open. *)
Lemma plot_lengths_savefig_error_leaves_figure_open :
  fst (plot_lengths env_savefig_fails [("NC_1", 1200%nat, "first")%string] "plot.png"
         init_world) = Err (LibraryError "No space left on device") /\
  figs init_world = [] /\
  figs (snd (plot_lengths env_savefig_fails [("NC_1", 1200%nat, "first")%string]
               "plot.png" init_world)) = [1%nat].
Proof. vm_compute. repeat split. Qed.

Lemma bind_modify {B} (f : World -> World) (k : unit -> M B) (w : World) :
  bind (modify f) k w = k tt (f w).
Proof. reflexivity. Qed.

Lemma bind_gets {A B} (f : World -> A) (k : A -> M B) (w : World) :
  bind (gets f) k w = k (f w) w.
Proof. reflexivity. Qed.

Lemma bind_assoc {A B C} (m : M A) (k1 : A -> M B) (k2 : B -> M C) (w : World) :
  bind (bind m k1) k2 w = bind m (fun a => bind (k1 a) k2) w.
Proof. unfold bind. destruct (m w) as [[a|e] w']; reflexivity. Qed.

Lemma bind_lift {A B} (r : Result A) (k : A -> M B) (w : World) :
  bind (lift r) k w = match r with Ok a => k a w | Err e => (Err e, w) end.
Proof. destruct r; reflexivity. Qed.

(** One run of [plot_lengths]: the figure is opened and drawn, then the
    outcome of the write of the image decides the final world. *)
Definition plot_canvas (env : Env) (df : list Row) : list string :=
  ["plot " ++ String.concat " " (map (fun r => fst (fst r)) (sort_length_desc env df));
   "xticks(rotation=90, fontsize=6)"; "xlabel(Accession)"; "ylabel(Sequence Length)";
   "title(Sequence Lengths (sorted))"; "tight_layout"]%string.

Lemma plot_lengths_run (env : Env) (df : list Row) (path : string) (w : World) :
  plot_lengths env df path w =
    match write_file env path (PngImage (plot_canvas env df)) with
    | Ok _ => (Ok tt, mkWorld (entrez_cfg w) (attrs w) (stdout w) (calls w)
                        (files w ++ [path]) (figs w) (S (next_fig w)) (plot_canvas env df))
    | Err e => (Err e, mkWorld (entrez_cfg w) (attrs w) (stdout w) (calls w)
                         (files w) (next_fig w :: figs w) (S (next_fig w))
                         (plot_canvas env df))
    end.
Proof.
  unfold plot_lengths, plt_figure, draw, plt_savefig, write, plt_close, add_file.
  repeat (rewrite bind_modify || rewrite bind_gets || rewrite bind_assoc; cbv beta;
          cbn [entrez_cfg attrs stdout calls files figs next_fig canvas]).
  rewrite bind_lift.
  change (_ ++ ["tight_layout"%string]) with (plot_canvas env df).
  destruct (write_file env path (PngImage (plot_canvas env df))); reflexivity.
Qed.

(** [C8] (amended) [plot_lengths] opens one figure, draws the plot and
    writes it as the image [plot_canvas env df]; the outcome of that write
    decides the rest: when it succeeds the figure is closed, leaving the
    open figures as they were, and [plot_lengths] returns normally; when it
    raises, the exception propagates out of [plot_lengths] and the new
    figure stays open. *)
Theorem plot_lengths_figure_lifecycle (env : Env) (df : list Row) (path : string) (w : World) :
  match write_file env path (PngImage (plot_canvas env df)) with
  | Ok _ =>
      (fst (plot_lengths env df path w) = Ok tt /\
       figs (snd (plot_lengths env df path w)) = figs w /\
       files (snd (plot_lengths env df path w)) = files w ++ [path])
  | Err e =>
      (fst (plot_lengths env df path w) = Err e /\
       figs (snd (plot_lengths env df path w)) = next_fig w :: figs w)
  end.
Proof.
  rewrite plot_lengths_run.
  destruct (write_file env path (PngImage (plot_canvas env df))) as [[]|e];
    repeat split.
Qed.

(** ** [fetch_records] before [search] *)

(** [C10] (as stated: [fetch_records] on a retriever without session
    tokens fails) fails for [max_records = 0]: [range(0, 0, 500)] is empty,
    the tokens are never read and the result is the empty list. *)
Lemma fetch_records_zero_without_search :
  attrs init_world = no_attrs /\
  fetch_records env_example 0 init_world = (Ok [], init_world).
Proof. split; reflexivity. Qed.

(** [fetch_records] on a world where [webenv] or [query_key] is
    unassigned. *)
Lemma fetch_records_missing_tokens (env : Env) (m : Z) (w : World)
  (Hmissing : webenv (attrs w) = None \/ query_key (attrs w) = None) :
  (0 < m ->
   fst (fetch_records env m w) = Err (AttributeError "webenv") \/
   fst (fetch_records env m w) = Err (AttributeError "query_key")) /\
  (m <= 0 -> fetch_records env m w = (Ok [], w)).
Proof.
  unfold fetch_records, py_range. rewrite Z.sub_0_r. split; intros Hm.
  - destruct (Z.to_nat m) as [|k] eqn:Ek; [lia|].
    simpl. replace (0 <? m) with true by (symmetry; apply Z.ltb_lt; exact Hm).
    simpl. unfold get_attr, gets, ret, raise, bind.
    destruct (webenv (attrs w)) as [we|]; simpl; [|left; reflexivity].
    destruct Hmissing as [Hw|Hq]; [discriminate|].
    rewrite Hq. right. reflexivity.
  - replace (Z.to_nat m) with 0%nat by lia. reflexivity.
Qed.

(** [self.query_key = res["QueryKey"]] is the last statement of the [try]
    block of [search]: a [search] where some lookup fails leaves
    [query_key] as it was. *)
Lemma search_failure_query_key (env : Env) (taxid : string) (w : World) :
  ~ (exists name cs we qk c, search_ok env taxid name cs we qk c) ->
  query_key (attrs (snd (search env taxid w))) = query_key (attrs w).
Proof.
  intros Hfail.
  unfold search, try_except, getitem, int_, set_attrs,
    print, modify, lift, ret, raise, bind.
  change ("txid" ++ taxid ++ "[Organism]")%string with (search_term taxid).
  destruct (tax_efetch env taxid) as [[|[name|] rest]|e] eqn:Htax; simpl;
    try reflexivity.
  destruct (esearch env (search_term taxid)) as [[[[cs|] [we|]] [qk|]]|e]
    eqn:Hes; simpl; try reflexivity;
    destruct (py_int cs) as [c|] eqn:Hc; simpl; try reflexivity.
  exfalso. apply Hfail. exists name, cs, we, qk, c.
  split; [eexists; exact Htax|]. split; [exact Hes|exact Hc].
Qed.

(** [C10] (amended) Only a [search] whose every lookup succeeds assigns
    both [webenv] and [query_key]: on a retriever where [query_key] is
    unassigned, [search] leaves it assigned exactly when all its lookups
    succeed, and a failing [search] leaves it unassigned, so that
    [fetch_records m] after it raises [AttributeError] for [m > 0].  On a
    retriever where [webenv] or [query_key] is unassigned,
    [fetch_records m] raises [AttributeError] for [m > 0], and for
    [m <= 0] returns the empty list without reading them. *)
Theorem fetch_records_without_tokens (env : Env) (taxid : string) (m : Z) (w : World)
  (Hmissing : webenv (attrs w) = None \/ query_key (attrs w) = None) :
  (0 < m ->
   fst (fetch_records env m w) = Err (AttributeError "webenv") \/
   fst (fetch_records env m w) = Err (AttributeError "query_key")) /\
  (m <= 0 -> fetch_records env m w = (Ok [], w)) /\
  (query_key (attrs w) = None ->
   ((exists we qk, webenv (attrs (snd (search env taxid w))) = Some we /\
                   query_key (attrs (snd (search env taxid w))) = Some qk) <->
    (exists name cs we qk c, search_ok env taxid name cs we qk c)) /\
   (~ (exists name cs we qk c, search_ok env taxid name cs we qk c) ->
    query_key (attrs (snd (search env taxid w))) = None /\
    (0 < m ->
     fst (fetch_records env m (snd (search env taxid w))) = Err (AttributeError "webenv") \/
     fst (fetch_records env m (snd (search env taxid w))) = Err (AttributeError "query_key")))).
Proof.
  destruct (fetch_records_missing_tokens env m w Hmissing) as [H1 H2].
  split; [exact H1|]. split; [exact H2|].
  intros Hq0.
  assert (Hfail : ~ (exists name cs we qk c, search_ok env taxid name cs we qk c) ->
                  query_key (attrs (snd (search env taxid w))) = None).
  { intros Hf. rewrite (search_failure_query_key env taxid w Hf). exact Hq0. }
  split.
  - split.
    + intros (we & qk & _ & Hqk).
      destruct (search_cases env taxid w)
        as [(name & cs & we' & qk' & c & Hok & _) | (_ & Hf)].
      * exists name, cs, we', qk', c. exact Hok.
      * rewrite (Hfail Hf) in Hqk. discriminate.
    + intros Hok.
      destruct (search_cases env taxid w)
        as [(name & cs & we & qk & c & _ & Hrun) | (_ & Hf)];
        [|contradiction].
      rewrite Hrun. exists we, qk. split; reflexivity.
  - intros Hf. split; [exact (Hfail Hf)|].
    apply (fetch_records_missing_tokens env m (snd (search env taxid w))).
    right. exact (Hfail Hf).
Qed.

(** ** CSV round trip *)

Lemma digits_nil (u : Decimal.uint) : digits u = [] -> u = Decimal.Nil.
Proof. destruct u; simpl; congruence. Qed.

Lemma undigits_digits (u : Decimal.uint) : undigits (digits u) = Some u.
Proof. induction u; simpl; rewrite ?IHu; reflexivity. Qed.

Lemma str_nat_nonempty (n : nat) : str_nat n <> [].
Proof.
  unfold str_nat. intros H. apply digits_nil in H.
  destruct n as [|k]; [discriminate H|].
  pose proof (DecimalNat.Unsigned.of_to (S k)) as E. rewrite H in E. discriminate E.
Qed.

Lemma nat_of_digits_str_nat (n : nat) : nat_of_digits (str_nat n) = Some n.
Proof.
  unfold nat_of_digits. destruct (str_nat n) eqn:E; [exfalso; exact (str_nat_nonempty n E)|].
  rewrite <- E. unfold str_nat. rewrite undigits_digits. simpl.
  rewrite DecimalNat.Unsigned.of_to. reflexivity.
Qed.

Lemma digits_no_CR (u : Decimal.uint) : ~ In CR (digits u).
Proof.
  induction u; simpl; [tauto|..]; intros [H|H]; try discriminate H; exact (IHu H).
Qed.

Lemma special_false (c : ascii) :
  special c = false ->
  Ascii.eqb c COMMA = false /\ Ascii.eqb c QUOTE = false /\ Ascii.eqb c LF = false.
Proof.
  unfold special. intros H. apply orb_false_iff in H as [H H3].
  apply orb_false_iff in H as [H1 H2]. auto.
Qed.

Lemma not_CR (c : ascii) : c <> CR -> Ascii.eqb c CR = false.
Proof. apply Ascii.eqb_neq. Qed.

Lemma unquoted_run (f acc : list ascii) row rows :
  (forall c, In c f -> special c = false /\ c <> CR) ->
  fold_left rstep f (mkReader InField acc row rows) = mkReader InField (acc ++ f) row rows.
Proof.
  revert acc. induction f as [|c f IH]; intros acc Hf; simpl.
  - rewrite app_nil_r. reflexivity.
  - destruct (Hf c (or_introl eq_refl)) as [Hs Hcr].
    destruct (special_false c Hs) as (H1 & _ & H3).
    unfold rstep at 2. simpl. rewrite H1, H3, (not_CR c Hcr).
    unfold push_char. simpl. rewrite IH.
    + rewrite <- app_assoc. reflexivity.
    + intros c' Hc'. apply Hf. right. exact Hc'.
Qed.

Lemma quoted_run (f acc : list ascii) row rows :
  fold_left rstep (double_quotes f) (mkReader InQuoted acc row rows) =
  mkReader InQuoted (acc ++ f) row rows.
Proof.
  revert acc. induction f as [|c f IH]; intros acc; cbn [double_quotes fold_left].
  - rewrite app_nil_r. reflexivity.
  - destruct (Ascii.eqb c QUOTE) eqn:Hq; cbn [fold_left].
    + apply Ascii.eqb_eq in Hq. subst c.
      change (rstep (rstep (mkReader InQuoted acc row rows) QUOTE) QUOTE)
        with (mkReader InQuoted (acc ++ [QUOTE]) row rows).
      rewrite IH, <- app_assoc. reflexivity.
    + replace (rstep (mkReader InQuoted acc row rows) c)
        with (mkReader InQuoted (acc ++ [c]) row rows)
        by (unfold rstep; cbn [rst]; rewrite Hq; reflexivity).
      rewrite IH, <- app_assoc. reflexivity.
Qed.

Lemma existsb_false_In {A : Type} (p : A -> bool) (l : list A) :
  existsb p l = false -> forall x, In x l -> p x = false.
Proof.
  induction l as [|y l IH]; simpl; [tauto|].
  intros H x [<-|Hx]; apply orb_false_iff in H as [H1 H2]; auto.
Qed.

Lemma field_run (f : list ascii) row rows (st : rstate) :
  (st = StartRecord \/ st = StartField) -> cr_safe f ->
  exists st',
    fold_left rstep (csv_field f) (mkReader st [] row rows) = mkReader st' f row rows /\
    ((f = [] /\ st' = st) \/ st' = InField \/ st' = QuoteInQuoted).
Proof.
  intros Hst Hsafe. unfold csv_field.
  destruct (needs_quoting f) eqn:Hq.
  - exists QuoteInQuoted. split; [|right; right; reflexivity].
    simpl. rewrite fold_left_app.
    replace (rstep (mkReader st [] row rows) QUOTE) with (mkReader InQuoted [] row rows)
      by (destruct Hst as [-> | ->]; reflexivity).
    rewrite quoted_run. reflexivity.
  - destruct Hsafe as [Hsafe|Hcr]; [congruence|].
    pose proof (existsb_false_In special f Hq) as Hsp.
    destruct f as [|c f].
    + exists st. split; [reflexivity|left; split; reflexivity].
    + exists InField. split; [|right; left; reflexivity].
      assert (Hc : special c = false) by (apply Hsp; left; reflexivity).
      assert (Hccr : c <> CR) by (intros ->; apply Hcr; left; reflexivity).
      destruct (special_false c Hc) as (H1 & H2 & H3).
      simpl.
      replace (rstep (mkReader st [] row rows) c) with (mkReader InField [c] row rows).
      * apply unquoted_run. intros c' Hc'. split.
        -- apply Hsp. right. exact Hc'.
        -- intros ->. apply Hcr. right. exact Hc'.
      * destruct Hst as [-> | ->]; unfold rstep; simpl;
          unfold start_record_step, start_field_step;
          rewrite ?H1, ?H2, ?H3, (not_CR c Hccr); reflexivity.
Qed.

Lemma comma_step (st : rstate) f row rows :
  st <> AfterCR -> st <> InQuoted ->
  rstep (mkReader st f row rows) COMMA = mkReader StartField [] (row ++ [f]) rows.
Proof. intros H1 H2. destruct st; try reflexivity; congruence. Qed.

Lemma lf_step (st : rstate) f row rows :
  st = StartField \/ st = InField \/ st = QuoteInQuoted ->
  rstep (mkReader st f row rows) LF = mkReader StartRecord [] [] (rows ++ [row ++ [f]]).
Proof. intros [-> | [-> | ->]]; reflexivity. Qed.

Lemma tail_run (fs : list (list ascii)) :
  forall st f row rows,
  Forall cr_safe fs ->
  (st = StartField \/ st = InField \/ st = QuoteInQuoted \/ (st = StartRecord /\ fs <> [])) ->
  fold_left rstep (List.concat (map (fun g => COMMA :: csv_field g) fs) ++ [LF])
    (mkReader st f row rows) =
  mkReader StartRecord [] [] (rows ++ [row ++ f :: fs]).
Proof.
  induction fs as [|g fs IH]; intros st f row rows Hsafe Hst; simpl.
  - apply lf_step. destruct Hst as [H|[H|[H|[_ H]]]]; auto. congruence.
  - inversion Hsafe as [|? ? Hg Hfs]; subst.
    rewrite comma_step by (destruct Hst as [->|[->|[->|[-> _]]]]; discriminate).
    rewrite <- app_assoc, fold_left_app.
    destruct (field_run g (row ++ [f]) rows StartField (or_intror eq_refl) Hg)
      as [st' [Hrun Hst']].
    rewrite Hrun, IH; [rewrite <- app_assoc; reflexivity | exact Hfs |].
    destruct Hst' as [[_ ->]|[->| ->]]; auto.
Qed.

Lemma line_run (f : list ascii) (fs : list (list ascii)) rows :
  fs <> [] -> Forall cr_safe (f :: fs) ->
  fold_left rstep (csv_line (f :: fs)) (mkReader StartRecord [] [] rows) =
  mkReader StartRecord [] [] (rows ++ [f :: fs]).
Proof.
  intros Hne Hsafe. inversion Hsafe as [|? ? Hf Hfs]; subst.
  unfold csv_line. rewrite fold_left_app.
  destruct (field_run f [] rows StartRecord (or_introl eq_refl) Hf) as [st' [Hrun Hst']].
  rewrite Hrun, tail_run; [reflexivity | exact Hfs |].
  destruct Hst' as [[_ ->]|[->| ->]]; auto.
Qed.

Lemma lines_run (ls : list (list (list ascii))) :
  forall rows,
  Forall (fun fs => exists f fs', fs = f :: fs' /\ fs' <> [] /\ Forall cr_safe fs) ls ->
  fold_left rstep (List.concat (map csv_line ls)) (mkReader StartRecord [] [] rows) =
  mkReader StartRecord [] [] (rows ++ ls).
Proof.
  induction ls as [|l ls IH]; intros rows Hls; simpl.
  - rewrite app_nil_r. reflexivity.
  - inversion Hls as [|? ? (f & fs & -> & Hne & Hsafe) Hrest]; subst.
    rewrite fold_left_app, line_run by assumption.
    rewrite IH by exact Hrest. rewrite <- app_assoc. reflexivity.
Qed.

Lemma rows_of_records_row_fields (df : list Row) :
  rows_of_records (map row_fields df) = Some df.
Proof.
  induction df as [|[[acc len] desc] df IH]; simpl; [reflexivity|].
  rewrite nat_of_digits_str_nat, IH, !string_of_list_ascii_of_string. reflexivity.
Qed.

(** [C9] (as stated: every table survives writing and reading back)
    fails: Python's [csv] writer quotes a field only for the delimiter,
    the quote character and the characters of the line terminator (a line
    feed), so a description holding a bare carriage return is written
    unquoted and read back as a line break. *)
Lemma csv_round_trip_fails_on_CR :
  read_table (to_csv_text [("NC_1", 5%nat, String CR "b")%string]) = None.
Proof. vm_compute. reflexivity. Qed.

(** [C9] (amended) For every table whose accessions and descriptions
    hold a carriage return only when they are quoted, reading back the
    CSV text [to_csv_text] writes (the text [save_csv] writes) gives the
    header [accession,length,description] and the same rows in the same
    order. *)
Theorem csv_round_trip (df : list Row)
  (Hsafe : Forall (fun r => cr_safe (list_ascii_of_string (fst (fst r))) /\
                            cr_safe (list_ascii_of_string (snd r))) df) :
  read_table (to_csv_text df) = Some df.
Proof.
  unfold read_table, parse_csv.
  assert (Htext : to_csv_text df = List.concat (map csv_line (header :: map row_fields df)))
    by (unfold to_csv_text; simpl; rewrite map_map; reflexivity).
  rewrite Htext, (lines_run _ [] ).
  - simpl. destruct (list_eq_dec (list_eq_dec ascii_dec) header header) as [_|Hn];
      [|contradiction Hn; reflexivity].
    apply rows_of_records_row_fields.
  - constructor.
    + do 2 eexists. split; [reflexivity|]. split; [discriminate|].
      repeat (apply Forall_cons; [right; vm_compute; intuition discriminate|]).
      apply Forall_nil.
    + apply Forall_map. eapply Forall_impl; [|exact Hsafe].
      intros [[acc len] desc] [Ha Hd]. simpl in Ha, Hd.
      do 2 eexists. split; [reflexivity|]. split; [discriminate|].
      apply Forall_cons; [exact Ha|]. apply Forall_cons; [right; apply digits_no_CR|].
      apply Forall_cons; [exact Hd|]. apply Forall_nil.
Qed.

(** * Further properties of the script *)

(** ** [filter_records] *)

Lemma in_range_max_min (lo1 hi1 lo2 hi2 : Z) (r : SeqRecord) :
  in_range (Z.max lo1 lo2) (Z.min hi1 hi2) r = in_range lo1 hi1 r && in_range lo2 hi2 r.
Proof.
  unfold in_range.
  destruct (Z.leb_spec (Z.max lo1 lo2) (Z.of_nat (seq_len r)));
  destruct (Z.leb_spec (Z.of_nat (seq_len r)) (Z.min hi1 hi2));
  destruct (Z.leb_spec lo1 (Z.of_nat (seq_len r)));
  destruct (Z.leb_spec (Z.of_nat (seq_len r)) hi1);
  destruct (Z.leb_spec lo2 (Z.of_nat (seq_len r)));
  destruct (Z.leb_spec (Z.of_nat (seq_len r)) hi2);
  simpl; reflexivity || lia.
Qed.

(** Filtering twice is filtering once with the intersection of the two
    ranges: [filter_records(filter_records(rs, lo1, hi1), lo2, hi2)] keeps
    the records whose length lies in [max(lo1, lo2), min(hi1, hi2)]. *)
Theorem filter_records_twice (records : list SeqRecord) (lo1 hi1 lo2 hi2 : Z) :
  filter_records (filter_records records lo1 hi1) lo2 hi2 =
  filter_records records (Z.max lo1 lo2) (Z.min hi1 hi2).
Proof.
  induction records as [|r rs IH]; simpl; [reflexivity|].
  rewrite in_range_max_min.
  destruct (in_range lo1 hi1 r); simpl; [|exact IH].
  destruct (in_range lo2 hi2 r); simpl; rewrite IH; reflexivity.
Qed.

(** With an empty range ([max_len < min_len]) [filter_records] returns
    the empty list, whatever the records. *)
Theorem filter_records_empty_range (records : list SeqRecord) (lo hi : Z)
  (Hempty : hi < lo) :
  filter_records records lo hi = [].
Proof.
  induction records as [|r rs IH]; simpl; [reflexivity|].
  replace (in_range lo hi r) with false; [exact IH|].
  symmetry. apply not_true_iff_false. rewrite in_range_spec. lia.
Qed.

(** When every record's length lies in [min_len, max_len],
    [filter_records] returns the list unchanged. *)
Theorem filter_records_all_in_range (records : list SeqRecord) (lo hi : Z)
  (Hall : forall r, In r records -> lo <= Z.of_nat (seq_len r) <= hi) :
  filter_records records lo hi = records.
Proof.
  induction records as [|r rs IH]; simpl; [reflexivity|].
  replace (in_range lo hi r) with true.
  - rewrite IH; [reflexivity|]. intros r' Hr'. apply Hall. right. exact Hr'.
  - symmetry. apply in_range_spec. apply Hall. left. reflexivity.
Qed.

(** Filtering commutes with concatenation: filtering the records of
    several batches put together is putting together the filtered
    batches. *)
Theorem filter_records_concat_batches (l1 l2 : list SeqRecord) (lo hi : Z) :
  filter_records (l1 ++ l2) lo hi = filter_records l1 lo hi ++ filter_records l2 lo hi.
Proof.
  induction l1 as [|r l1 IH]; simpl; [reflexivity|].
  destruct (in_range lo hi r); simpl; rewrite IH; reflexivity.
Qed.

(** ** [fetch_records] *)

Lemma Forall2_answers (env : Env) (we qk : string) (h : Z -> Z)
  (answer : Z -> Z -> list SeqRecord)
  (Hans : forall s r, nuc_efetch env s r we qk = Ok (answer s r))
  (starts : list Z) (batches : list (list SeqRecord)) :
  Forall2 (fun s recs => nuc_efetch env s (h s) we qk = Ok recs) starts batches ->
  batches = map (fun s => answer s (h s)) starts.
Proof.
  induction 1 as [|s b ss bs Hb _ IH]; simpl; [reflexivity|].
  rewrite Hans in Hb. injection Hb as <-. rewrite IH. reflexivity.
Qed.

(** On a retriever holding the session tokens, with a service that
    answers each request [(retstart, retmax)] with the records
    [answer retstart retmax], [fetch_records m] ([m > 0]) returns the
    answers to its requests concatenated in the order of the requests,
    and changes nothing but the log of requests. *)
Theorem fetch_records_result (env : Env) (m : Z) (w : World) (we qk : string)
  (answer : Z -> Z -> list SeqRecord)
  (Hm : 0 < m)
  (Hwe : webenv (attrs w) = Some we) (Hqk : query_key (attrs w) = Some qk)
  (Hans : forall s r, nuc_efetch env s r we qk = Ok (answer s r)) :
  fetch_records env m w =
    (Ok (List.concat (map (fun k => answer (500 * Z.of_nat k) (Z.min 500 (m - 500 * Z.of_nat k)))
                          (seq 0 (Z.to_nat ((m + 499) / 500))))),
     mkWorld (entrez_cfg w) (attrs w) (stdout w)
       (calls w ++ map (fun k => (500 * Z.of_nat k, Z.min 500 (m - 500 * Z.of_nat k)))
                       (seq 0 (Z.to_nat ((m + 499) / 500))))
       (files w) (figs w) (next_fig w) (canvas w)).
Proof.
  assert (Hok : forall s r, exists recs, nuc_efetch env s r we qk = Ok recs)
    by (intros s r; eexists; apply Hans).
  unfold fetch_records.
  destruct (fetch_loop_run env m we qk Hok (py_range 0 m batch_size) [] w Hwe Hqk)
    as [b [Hrun Hf2]].
  rewrite Hrun.
  rewrite (Forall2_answers env we qk (fun s => Z.min batch_size (m - s)) answer Hans _ _ Hf2).
  rewrite py_range_batches by exact Hm. rewrite !map_map. reflexivity.
Qed.

Lemma fetch_loop_fail (env : Env) (m : Z) (we qk : string) (s : Z) (post : list Z)
  (e : exn) (Hs : nuc_efetch env s (Z.min batch_size (m - s)) we qk = Err e) (pre : list Z) :
  forall acc w,
  webenv (attrs w) = Some we -> query_key (attrs w) = Some qk ->
  (forall s', In s' pre -> exists recs, nuc_efetch env s' (Z.min batch_size (m - s')) we qk = Ok recs) ->
  fetch_loop env m (pre ++ s :: post) acc w =
    (Err e, mkWorld (entrez_cfg w) (attrs w) (stdout w)
              (calls w ++ map (fun s => (s, Z.min batch_size (m - s))) (pre ++ [s]))
              (files w) (figs w) (next_fig w) (canvas w)).
Proof.
  induction pre as [|s0 pre IH]; intros acc w Hwe Hqk Hpre.
  - simpl fetch_loop. unfold get_attr, gets, ret, log_call, modify, lift, bind.
    simpl. rewrite Hwe, Hqk, Hs. reflexivity.
  - destruct (Hpre s0 (or_introl eq_refl)) as [recs Hr].
    simpl fetch_loop. unfold get_attr, gets, ret, log_call, modify, lift, bind.
    simpl. rewrite Hwe, Hqk, Hr.
    rewrite IH; simpl; auto.
    + rewrite <- app_assoc. reflexivity.
    + intros s' Hs'. apply Hpre. right. exact Hs'.
Qed.

(** The requests of [fetch_records] are not retried and not caught: when
    the requests of the first [k] batches succeed and the request of batch
    [k] raises [e], [fetch_records] raises [e] after exactly the requests
    of batches [0..k], and issues none of the later ones. *)
Theorem fetch_records_first_error (env : Env) (m : Z) (w : World) (we qk : string)
  (k : nat) (e : exn)
  (Hm : 0 < m)
  (Hwe : webenv (attrs w) = Some we) (Hqk : query_key (attrs w) = Some qk)
  (Hk : (k < Z.to_nat ((m + 499) / 500))%nat)
  (Hpre : forall j, (j < k)%nat -> exists recs,
     nuc_efetch env (500 * Z.of_nat j) (Z.min 500 (m - 500 * Z.of_nat j)) we qk = Ok recs)
  (Hfail : nuc_efetch env (500 * Z.of_nat k) (Z.min 500 (m - 500 * Z.of_nat k)) we qk = Err e) :
  fetch_records env m w =
    (Err e, mkWorld (entrez_cfg w) (attrs w) (stdout w)
              (calls w ++ map (fun j => (500 * Z.of_nat j, Z.min 500 (m - 500 * Z.of_nat j)))
                              (seq 0 (S k)))
              (files w) (figs w) (next_fig w) (canvas w)).
Proof.
  unfold fetch_records. rewrite py_range_batches by exact Hm.
  set (n := Z.to_nat ((m + 499) / 500)) in *.
  replace n with (k + S (n - S k))%nat by lia.
  rewrite seq_app, map_app, Nat.add_0_l.
  change (seq k (S (n - S k))) with (k :: seq (S k) (n - S k)). cbn [map].
  rewrite (fetch_loop_fail env m we qk (500 * Z.of_nat k) _ e Hfail); auto.
  - rewrite seq_S, !map_app, !map_map. reflexivity.
  - intros s' Hs'. apply in_map_iff in Hs' as [j [<- Hj]].
    apply in_seq in Hj. apply Hpre. lia.
Qed.

Lemma range_loop_retmax (step stop : Z) (Hstep : 0 < step) :
  forall (fuel : nat) (cur : Z),
  stop - cur <= Z.of_nat fuel ->
  fold_right Z.add 0 (map (fun s => Z.min step (stop - s)) (range_loop fuel cur stop step))
    = Z.max 0 (stop - cur) /\
  Forall (fun s => 0 < Z.min step (stop - s) <= step) (range_loop fuel cur stop step).
Proof.
  induction fuel as [|fuel IH]; intros cur Hf; simpl.
  - split; [lia | constructor].
  - destruct (Z.ltb_spec cur stop) as [Hlt|Hge]; simpl.
    + destruct (IH (cur + step)) as [Hsum Hall]; [lia|].
      rewrite Hsum. split; [lia|]. constructor; [lia | exact Hall].
    + split; [lia | constructor].
Qed.

(** Each request of [fetch_records m] asks for between 1 and 500 records,
    and the requests ask for [m] records in total: no record is requested
    twice or beyond [max_records]. *)
Theorem fetch_records_requests_total (env : Env) (m : Z) (w : World) (we qk : string)
  (Hm : 0 < m)
  (Hwe : webenv (attrs w) = Some we) (Hqk : query_key (attrs w) = Some qk)
  (Hok : forall s r, exists recs, nuc_efetch env s r we qk = Ok recs) :
  exists reqs,
    calls (snd (fetch_records env m w)) = calls w ++ reqs /\
    Forall (fun c => 0 < snd c <= 500) reqs /\
    fold_right Z.add 0 (map snd reqs) = m.
Proof.
  unfold fetch_records.
  destruct (fetch_loop_run env m we qk Hok (py_range 0 m batch_size) [] w Hwe Hqk)
    as [b [Hrun _]].
  rewrite Hrun. simpl.
  exists (map (fun s => (s, Z.min batch_size (m - s))) (py_range 0 m batch_size)).
  split; [reflexivity|].
  unfold py_range, batch_size.
  destruct (range_loop_retmax 500 m ltac:(lia) (Z.to_nat (m - 0)) 0) as [Hsum Hall]; [lia|].
  split.
  - apply Forall_map. exact Hall.
  - rewrite map_map. simpl. rewrite Hsum. lia.
Qed.

(** ** [save_csv] *)

Lemma save_csv_run (env : Env) (records : list SeqRecord) (fn : string) (w : World) :
  records <> [] ->
  save_csv env records fn w =
    match write_file env fn (CsvText (to_csv_text
            (sort_length_desc env (map (fun r => (id r, seq_len r, description r)) records)))) with
    | Ok _ => (Ok (sort_length_desc env (map (fun r => (id r, seq_len r, description r)) records)),
               mkWorld (entrez_cfg w) (attrs w) (stdout w) (calls w) (files w ++ [fn])
                       (figs w) (next_fig w) (canvas w))
    | Err e => (Err e, w)
    end.
Proof.
  intros Hne. destruct records as [|r rs]; [contradiction|].
  unfold save_csv. cbn [map]. unfold write, add_file.
  rewrite bind_assoc, bind_lift.
  destruct (write_file env fn _); reflexivity.
Qed.

Lemma in_insert_desc (r x : Row) (l : list Row) : In x (insert_desc r l) -> x = r \/ In x l.
Proof.
  induction l as [|y l IH]; simpl.
  - intros [<-|[]]. left. reflexivity.
  - destruct (snd (fst y) <=? snd (fst r))%nat; simpl.
    + intros [<-|[<-|H]]; auto.
    + intros [<-|H]; auto. destruct (IH H); auto.
Qed.

Lemma insertion_sort_desc_incl (l : list Row) : incl (insertion_sort_desc l) l.
Proof.
  induction l as [|r l IH]; simpl; intros x Hx; [exact Hx|].
  destruct (in_insert_desc r x _ Hx) as [<-|H]; [left; reflexivity|right; apply IH, H].
Qed.

Lemma to_csv_text_read_table (df : list Row)
  (Hsafe : Forall (fun r => cr_safe (list_ascii_of_string (fst (fst r))) /\
                            cr_safe (list_ascii_of_string (snd r))) df) :
  read_table (to_csv_text df) = Some df.
Proof.
  unfold read_table, parse_csv.
  assert (Htext : to_csv_text df = List.concat (map csv_line (header :: map row_fields df)))
    by (unfold to_csv_text; simpl; rewrite map_map; reflexivity).
  rewrite Htext, (lines_run _ [] ).
  - simpl. destruct (list_eq_dec (list_eq_dec ascii_dec) header header) as [_|Hn];
      [|contradiction Hn; reflexivity].
    apply rows_of_records_row_fields.
  - constructor.
    + do 2 eexists. split; [reflexivity|]. split; [discriminate|].
      repeat (apply Forall_cons; [right; vm_compute; intuition discriminate|]).
      apply Forall_nil.
    + apply Forall_map. eapply Forall_impl; [|exact Hsafe].
      intros [[acc len] desc] [Ha Hd]. simpl in Ha, Hd.
      do 2 eexists. split; [reflexivity|]. split; [discriminate|].
      apply Forall_cons; [exact Ha|]. apply Forall_cons; [right; apply digits_no_CR|].
      apply Forall_cons; [exact Hd|]. apply Forall_nil.
Qed.

(** [main] hands [save_csv] the filtered records (lines 84-90): when the
    library sort only reorders rows, every row of the table [save_csv]
    returns, the table it writes, is the accession, length and description
    of one of the fetched records, and that length lies in
    [min_len, max_len]. *)
Theorem save_csv_filtered_rows (env : Env) (records : list SeqRecord) (lo hi : Z)
  (fn : string) (w : World) (df : list Row)
  (Hsort : forall l, incl (sort_length_desc env l) l)
  (Hrun : fst (save_csv env (filter_records records lo hi) fn w) = Ok df) :
  forall row, In row df ->
    exists r, In r records /\ row = (id r, seq_len r, description r) /\
              lo <= Z.of_nat (seq_len r) <= hi.
Proof.
  intros row Hrow.
  destruct (filter_records records lo hi) as [|r0 rs] eqn:Ef; [discriminate Hrun|].
  rewrite (save_csv_run env (r0 :: rs) fn w ltac:(discriminate)) in Hrun.
  destruct (write_file env fn _) as [[]|e]; [|discriminate Hrun].
  cbn [fst] in Hrun. injection Hrun as <-.
  apply Hsort in Hrow.
  change (In row (map (fun r => (id r, seq_len r, description r)) (r0 :: rs))) in Hrow.
  apply in_map_iff in Hrow. destruct Hrow as (r & <- & Hr).
  rewrite <- Ef, filter_records_In in Hr. destruct Hr as [Hr Hb].
  exists r. split; [exact Hr|]. split; [reflexivity|exact Hb].
Qed.

(** The file [save_csv] writes reads back as the table it returns: when
    [save_csv] returns [df], it has written [to_csv_text df] to
    [filename], and reading that text gives the header and the rows of
    [df] in order, provided the sort only reorders rows and no accession
    or description holds an unquoted carriage return. *)
Theorem save_csv_file_reads_back (env : Env) (records : list SeqRecord) (fn : string)
  (w w' : World) (df : list Row)
  (Hsort : forall l, incl (sort_length_desc env l) l)
  (Hsafe : Forall (fun r => cr_safe (list_ascii_of_string (id r)) /\
                            cr_safe (list_ascii_of_string (description r))) records)
  (Hrun : save_csv env records fn w = (Ok df, w')) :
  write_file env fn (CsvText (to_csv_text df)) = Ok tt /\
  files w' = files w ++ [fn] /\
  read_table (to_csv_text df) = Some df.
Proof.
  destruct records as [|r rs] eqn:Er; [discriminate Hrun|].
  rewrite <- Er in Hrun, Hsafe.
  assert (Hne : records <> []) by (rewrite Er; discriminate).
  rewrite (save_csv_run env records fn w Hne) in Hrun.
  destruct (write_file env fn _) as [[]|e] eqn:Ew; [|discriminate Hrun].
  injection Hrun as <- <-. split; [exact Ew|]. split; [reflexivity|].
  apply to_csv_text_read_table.
  apply Forall_forall. intros x Hx.
  apply Hsort in Hx. apply in_map_iff in Hx as [y [<- Hy]].
  rewrite Forall_forall in Hsafe. exact (Hsafe y Hy).
Qed.

(** ** [main] *)

Lemma fetch_loop_frame (env : Env) (m : Z) (starts : list Z) :
  forall acc w,
  entrez_cfg (snd (fetch_loop env m starts acc w)) = entrez_cfg w /\
  stdout (snd (fetch_loop env m starts acc w)) = stdout w /\
  files (snd (fetch_loop env m starts acc w)) = files w /\
  figs (snd (fetch_loop env m starts acc w)) = figs w /\
  next_fig (snd (fetch_loop env m starts acc w)) = next_fig w.
Proof.
  induction starts as [|s rest IH]; intros acc w; [repeat split|].
  simpl fetch_loop. unfold get_attr, gets, ret, raise, log_call, modify, lift, bind.
  destruct (webenv (attrs w)) as [we|]; [|repeat split].
  destruct (query_key (attrs w)) as [qk|]; [|repeat split].
  destruct (nuc_efetch env s (Z.min batch_size (m - s)) we qk) as [recs|e]; [|repeat split].
  match goal with |- context [fetch_loop env m rest ?acc' ?w'] =>
    destruct (IH acc' w') as (H1 & H2 & H3 & H4 & H5)
  end.
  rewrite H1, H2, H3, H4, H5. repeat split.
Qed.

Lemma main_outcomes (env : Env) (email api_key taxid min_s max_s : string) (w0 : World) :
  match main env email api_key taxid min_s max_s w0 with
  | (res, w') =>
      (files w' = files w0 /\ figs w' = figs w0) \/
      (files w' = files w0 ++ [("taxid_" ++ taxid ++ "_filtered.csv")%string] /\
       figs w' = next_fig w0 :: figs w0 /\ exists e, res = Err e) \/
      (files w' = files w0 ++ [("taxid_" ++ taxid ++ "_filtered.csv")%string;
                               ("taxid_" ++ taxid ++ "_plot.png")%string] /\
       figs w' = figs w0 /\ res = Ok tt)
  end.
Proof.
  unfold main, int_.
  destruct (py_int min_s) as [lo|]; world_red; [|left; auto].
  destruct (py_int max_s) as [hi|]; world_red; [|left; auto].
  match goal with |- context [bind (search env taxid) _ ?w1] =>
    cbv beta delta [bind];
    destruct (search_cases env taxid w1)
      as [(n & cs & we & qk & c & _ & Hrun) | ((e & a & out & Hrun & _) & _)];
    rewrite Hrun
  end.
  all: unfold main_after_search; cbv beta delta [bind]; world_red.
  all: try (left; split; reflexivity).
  all: destruct (c =? 0); world_red; [left; split; reflexivity|].
  match goal with |- context [fetch_records env 1000 ?w3] =>
         pose proof (fetch_loop_frame env 1000 (py_range 0 1000 batch_size) [] w3) as Hfr;
         change (fetch_loop env 1000 (py_range 0 1000 batch_size) [] w3)
           with (fetch_records env 1000 w3) in Hfr;
         destruct (fetch_records env 1000 w3) as [[recs|e'] w4];
         cbn [fst snd entrez_cfg stdout files figs next_fig] in Hfr;
         destruct Hfr as (_ & _ & Hfi & Hfg & Hnf)
       end; world_red; [|left; split; assumption].
  destruct (filter_records recs lo hi) as [|r rs]; world_red;
         [left; split; assumption|].
  rewrite save_csv_run by discriminate.
  destruct (write_file env _ _) as [[]|e2]; world_red; [|left; split; assumption].
  rewrite plot_lengths_run.
  destruct (write_file env _ _) as [[]|e3]; world_red.
  - right; right. rewrite Hfi, Hfg, <- app_assoc. auto.
  - right; left. rewrite Hfi, Hfg, Hnf. split; [reflexivity|]. split; [reflexivity|].
    eexists. reflexivity.
Qed.

(** When [main] returns normally, no write raised: either it wrote no
    file, or it wrote [taxid_<taxid>_filtered.csv] and then
    [taxid_<taxid>_plot.png], in this order; and the figure of the plot has
    been closed, leaving the open figures as before.  When [main] raises,
    at most the plot's figure is left open. *)
Theorem main_normal_return_files (env : Env) (email api_key taxid min_s max_s : string)
  (w0 : World) :
  match main env email api_key taxid min_s max_s w0 with
  | (Ok _, w') =>
      figs w' = figs w0 /\
      (files w' = files w0 \/
       files w' = files w0 ++ [("taxid_" ++ taxid ++ "_filtered.csv")%string;
                               ("taxid_" ++ taxid ++ "_plot.png")%string])
  | (Err _, w') => figs w' = figs w0 \/ figs w' = next_fig w0 :: figs w0
  end.
Proof.
  pose proof (main_outcomes env email api_key taxid min_s max_s w0) as H.
  destruct (main env email api_key taxid min_s max_s w0) as [[[]|e] w'].
  - destruct H as [(Hf & Hg) | [(_ & _ & e & He) | (Hf & Hg & _)]].
    + split; [exact Hg|left; exact Hf].
    + discriminate He.
    + split; [exact Hg|right; exact Hf].
  - destruct H as [(_ & Hg) | [(_ & Hg & _) | (_ & _ & He)]].
    + left; exact Hg.
    + right; exact Hg.
    + discriminate He.
Qed.

Lemma nat_of_digits_no_digit (ds : list ascii) :
  forallb (fun c => (Nat.ltb (nat_of_ascii c) 128) && negb (is_ascii_digit c)) ds = true ->
  nat_of_digits ds = None.
Proof.
  destruct ds as [|d ds]; [reflexivity|].
  cbn [forallb]. intros H. apply andb_prop in H as [Hd _].
  apply andb_prop in Hd as [_ Hnd]. unfold is_ascii_digit in Hnd.
  unfold nat_of_digits. cbn [undigits].
  destruct (digit_ctor d); [discriminate Hnd|reflexivity].
Qed.

Lemma py_int_no_digit (s : string) : no_digit_ascii s = true -> py_int s = None.
Proof.
  unfold no_digit_ascii, py_int. intros H.
  destruct (list_ascii_of_string s) as [|c l]; [reflexivity|].
  pose proof (nat_of_digits_no_digit (c :: l) H) as Hcl.
  cbn [forallb] in H. apply andb_prop in H as [_ Hl].
  pose proof (nat_of_digits_no_digit l Hl) as Hl'.
  destruct c as [[] [] [] [] [] [] [] []]; cbv beta iota;
    first [rewrite Hl'; reflexivity | rewrite Hcl; reflexivity].
Qed.

(** An answer to [Min sequence length] or [Max sequence length] made of
    ASCII characters none of which is a digit (so that Python's [int()]
    rejects it) makes [int()] raise [ValueError] out of [main], right
    after that prompt: the retriever is not created, Entrez is not
    configured, no request is issued and no file is written. *)
Theorem main_invalid_length (env : Env) (email api_key taxid min_s max_s : string)
  (w0 : World) :
  (no_digit_ascii min_s = true ->
   main env email api_key taxid min_s max_s w0 =
     (Err ValueError,
      mkWorld (entrez_cfg w0) (attrs w0)
        (stdout w0 ++ ["Enter NCBI email: "; "Enter NCBI API key: "; "Enter TaxID: ";
                       "Min sequence length: "]%string)
        (calls w0) (files w0) (figs w0) (next_fig w0) (canvas w0))) /\
  (forall lo, py_int min_s = Some lo -> no_digit_ascii max_s = true ->
   main env email api_key taxid min_s max_s w0 =
     (Err ValueError,
      mkWorld (entrez_cfg w0) (attrs w0)
        (stdout w0 ++ ["Enter NCBI email: "; "Enter NCBI API key: "; "Enter TaxID: ";
                       "Min sequence length: "; "Max sequence length: "]%string)
        (calls w0) (files w0) (figs w0) (next_fig w0) (canvas w0))).
Proof.
  split.
  - intros Hmin. apply py_int_no_digit in Hmin.
    unfold main, int_. rewrite Hmin. world_red.
    rewrite <- !app_assoc. reflexivity.
  - intros lo Hmin Hmax. apply py_int_no_digit in Hmax.
    unfold main, int_. rewrite Hmin, Hmax. world_red.
    rewrite <- !app_assoc. reflexivity.
Qed.

Lemma fetch_records_1000 (env : Env) (w : World) (we qk : string) (b1 b2 : list SeqRecord)
  (Hwe : webenv (attrs w) = Some we) (Hqk : query_key (attrs w) = Some qk)
  (H1 : nuc_efetch env 0 500 we qk = Ok b1) (H2 : nuc_efetch env 500 500 we qk = Ok b2) :
  fetch_records env 1000 w =
    (Ok (b1 ++ b2), mkWorld (entrez_cfg w) (attrs w) (stdout w)
                      (calls w ++ [(0, 500); (500, 500)])
                      (files w) (figs w) (next_fig w) (canvas w)).
Proof.
  unfold fetch_records.
  replace (py_range 0 1000 batch_size) with [0; 500] by reflexivity.
  simpl fetch_loop.
  destruct w as [cfg at_ out cl fl fg nf cv]. cbn [attrs] in Hwe, Hqk.
  unfold get_attr, gets, ret, raise, log_call, modify, lift, bind.
  replace (Z.min batch_size 1000) with 500 by reflexivity.
  replace (Z.min batch_size 500) with 500 by reflexivity.
  simpl. repeat progress (rewrite ?Hwe, ?Hqk, ?H1, ?H2; simpl).
  rewrite <- app_assoc. reflexivity.
Qed.

(** A run of [main] where everything succeeds: the search finds [c > 0]
    records, the two requests of [fetch_records(max_records=1000)]
    (batches [(0, 500)] and [(500, 500)]) are answered, at least one
    record has its length in the range, and the files are written.  Then
    [main] returns normally after writing [taxid_<taxid>_filtered.csv]
    and then [taxid_<taxid>_plot.png], with the figure closed; its output
    is the five prompts, the organism, the announcement of the fetch and
    the two final lines, the first counting the filtered records. *)
Theorem main_success (env : Env) (email api_key taxid min_s max_s : string) (w0 : World)
  (lo hi : Z) (name cs we qk : string) (c : Z) (b1 b2 : list SeqRecord)
  (Hlo : py_int min_s = Some lo) (Hhi : py_int max_s = Some hi)
  (Hsearch : search_ok env taxid name cs we qk c) (Hc : c <> 0)
  (Hb1 : nuc_efetch env 0 500 we qk = Ok b1) (Hb2 : nuc_efetch env 500 500 we qk = Ok b2)
  (Hmatch : filter_records (b1 ++ b2) lo hi <> [])
  (Hwrite : forall path data, write_file env path data = Ok tt) :
  exists w',
    main env email api_key taxid min_s max_s w0 = (Ok tt, w') /\
    files w' = files w0 ++ [("taxid_" ++ taxid ++ "_filtered.csv")%string;
                            ("taxid_" ++ taxid ++ "_plot.png")%string] /\
    figs w' = figs w0 /\
    calls w' = calls w0 ++ [(0, 500); (500, 500)] /\
    stdout w' = stdout w0 ++
      ["Enter NCBI email: "; "Enter NCBI API key: "; "Enter TaxID: ";
       "Min sequence length: "; "Max sequence length: ";
       "Organism: " ++ name;
       "Fetching up to 1000 records out of " ++ str_Z c ++ " available...";
       "Saved " ++ str_Z (Z.of_nat (List.length (filter_records (b1 ++ b2) lo hi))) ++
         " records to " ++ "taxid_" ++ taxid ++ "_filtered.csv";
       "Plot saved as " ++ "taxid_" ++ taxid ++ "_plot.png"]%string.
Proof.
  unfold main, int_. rewrite Hlo, Hhi. world_red.
  match goal with |- context [bind (search env taxid) _ ?w1] =>
    cbv beta delta [bind];
    destruct (search_cases env taxid w1)
      as [(n & cs' & we' & qk' & c' & Hok & Hrun) | ((e & a & out & Hrun & _) & Hno)]
  end.
  2: { exfalso. apply Hno. exists name, cs, we, qk, c. exact Hsearch. }
  destruct (search_ok_unique env taxid _ _ _ _ _ _ _ _ _ _ Hok Hsearch)
    as (-> & -> & -> & ->).
  rewrite Hrun. unfold main_after_search. cbv beta delta [bind]. world_red.
  replace (c =? 0) with false by (symmetry; apply Z.eqb_neq; exact Hc).
  world_red.
  match goal with |- context [fetch_records env 1000 ?w3] =>
    rewrite (fetch_records_1000 env w3 we qk b1 b2 eq_refl eq_refl Hb1 Hb2)
  end.
  world_red.
  destruct (filter_records (b1 ++ b2) lo hi) as [|r rs]; [contradiction|].
  world_red.
  rewrite save_csv_run by discriminate. rewrite Hwrite. world_red.
  rewrite plot_lengths_run, Hwrite. world_red.
  eexists. split; [reflexivity|]. world_red.
  split; [rewrite <- !app_assoc; reflexivity|].
  split; [reflexivity|].
  split; [reflexivity|].
  rewrite <- !app_assoc. reflexivity.
Qed.

(** * Witnesses: the theorems with hypotheses applied to explicit inputs *)

Lemma fetch_records_paging_witness :
  (exists recs, fst (fetch_records env_example 1200 world_after_search) = Ok recs) /\
  calls (snd (fetch_records env_example 1200 world_after_search)) =
    calls world_after_search ++
    map (fun k => (500 * Z.of_nat k, Z.min 500 (1200 - 500 * Z.of_nat k)))
        (seq 0 (Z.to_nat ((1200 + 499) / 500))) /\
  calls (snd (fetch_records env_example 1200 world_after_search)) =
    calls world_after_search ++ [(0, 500); (500, 500); (1000, 200)].
Proof.
  apply (fetch_records_paging env_example 1200 world_after_search "WE1" "1").
  - lia.
  - reflexivity.
  - reflexivity.
  - intros s r. eexists. reflexivity.
Defined.

Lemma main_no_results_witness :
  fst (search env_unknown_taxid "0" init_world) = Ok 0 /\
  fst (main env_unknown_taxid "me@example.org" "key" "0" "500" "1500" init_world) = Ok tt /\
  files (snd (main env_unknown_taxid "me@example.org" "key" "0" "500" "1500" init_world))
    = files init_world /\
  figs (snd (main env_unknown_taxid "me@example.org" "key" "0" "500" "1500" init_world))
    = figs init_world /\
  calls (snd (main env_unknown_taxid "me@example.org" "key" "0" "500" "1500" init_world))
    = calls init_world /\
  last (stdout (snd (main env_unknown_taxid "me@example.org" "key" "0" "500" "1500"
                        init_world))) ""%string = "No results."%string.
Proof.
  split; [reflexivity|].
  apply (main_no_results env_unknown_taxid "me@example.org" "key" "0" "500" "1500"
           500 1500 init_world); reflexivity.
Defined.

Lemma main_no_matches_witness :
  fst (main env_example "me@example.org" "key" "562" "5000" "6000" init_world) = Ok tt /\
  files (snd (main env_example "me@example.org" "key" "562" "5000" "6000" init_world))
    = files init_world /\
  figs (snd (main env_example "me@example.org" "key" "562" "5000" "6000" init_world))
    = figs init_world /\
  last (stdout (snd (main env_example "me@example.org" "key" "562" "5000" "6000"
                        init_world))) ""%string =
    "No records match length criteria."%string.
Proof.
  apply (main_no_matches env_example "me@example.org" "key" "562" "5000" "6000"
           5000 6000 1200 init_world).
  - reflexivity.
  - reflexivity.
  - reflexivity.
  - discriminate.
  - intros s r we qk. eexists. split; [reflexivity|]. world_red.
    simpl. destruct (s =? 0); reflexivity.
Defined.

Lemma csv_round_trip_witness :
  Forall (fun r => cr_safe (list_ascii_of_string (fst (fst r))) /\
                   cr_safe (list_ascii_of_string (snd r)))
    [("NC_1", 1200%nat, String "a" (String "," (String CR "b")));
     ("NC_2", 0%nat, "")]%string /\
  read_table (to_csv_text [("NC_1", 1200%nat, String "a" (String "," (String CR "b")));
                           ("NC_2", 0%nat, "")]%string) =
  Some [("NC_1", 1200%nat, String "a" (String "," (String CR "b")));
        ("NC_2", 0%nat, "")]%string.
Proof.
  assert (Hsafe : Forall (fun r => cr_safe (list_ascii_of_string (fst (fst r))) /\
                                   cr_safe (list_ascii_of_string (snd r)))
    [("NC_1", 1200%nat, String "a" (String "," (String CR "b")));
     ("NC_2", 0%nat, "")]%string).
  { repeat (apply Forall_cons;
      [split; first [left; reflexivity | right; vm_compute; intuition discriminate]|]).
    apply Forall_nil. }
  split; [exact Hsafe|]. apply csv_round_trip. exact Hsafe.
Defined.

Lemma fetch_records_without_tokens_witness :
  (webenv (attrs init_world) = None \/ query_key (attrs init_world) = None) /\
  fst (fetch_records env_no_query_key 1 init_world) = Err (AttributeError "webenv") /\
  webenv (attrs (snd (search env_no_query_key "562" init_world))) = Some "WE1"%string /\
  query_key (attrs (snd (search env_no_query_key "562" init_world))) = None /\
  fst (fetch_records env_no_query_key 1 (snd (search env_no_query_key "562" init_world)))
    = Err (AttributeError "query_key").
Proof.
  assert (Hm : webenv (attrs init_world) = None \/ query_key (attrs init_world) = None)
    by (left; reflexivity).
  destruct (fetch_records_without_tokens env_no_query_key "562" 1 init_world Hm)
    as (H1 & _ & H3).
  split; [exact Hm|].
  split; [destruct (H1 ltac:(lia)) as [E|E]; [exact E|vm_compute in E; discriminate E]|].
  split; [vm_compute; reflexivity|].
  destruct (H3 eq_refl) as (_ & H4).
  assert (Hf : ~ (exists name cs we qk c, search_ok env_no_query_key "562" name cs we qk c)).
  { intros (name & cs & we & qk & c & _ & Hes & _). vm_compute in Hes. discriminate Hes. }
  destruct (H4 Hf) as (H5 & H6). split; [exact H5|].
  destruct (H6 ltac:(lia)) as [E|E]; [vm_compute in E; discriminate E|exact E].
Defined.

Lemma filter_records_empty_range_witness :
  1500 < 2000 /\ filter_records example_records 2000 1500 = [].
Proof. split; [lia|]. apply filter_records_empty_range. lia. Defined.

Lemma filter_records_all_in_range_witness :
  filter_records example_records 300 1200 = example_records.
Proof.
  apply filter_records_all_in_range.
  intros r Hr. destruct Hr as [<-|[<-|[<-|[]]]]; simpl; lia.
Defined.

Lemma fetch_records_result_witness :
  fetch_records env_example 1200 world_after_search =
    (Ok example_records,
     mkWorld None (attrs world_after_search) [] [(0, 500); (500, 500); (1000, 200)] [] [] 1 []).
Proof.
  rewrite (fetch_records_result env_example 1200 world_after_search "WE1" "1"
             (fun s _ => if s =? 0 then example_records else [])).
  - reflexivity.
  - lia.
  - reflexivity.
  - reflexivity.
  - intros s r. reflexivity.
Defined.

Lemma fetch_records_first_error_witness :
  fetch_records env_second_batch_fails 1200 world_after_search =
    (Err (LibraryError "HTTP Error 500: Internal Server Error"),
     mkWorld None (attrs world_after_search) [] [(0, 500); (500, 500)] [] [] 1 []).
Proof.
  rewrite (fetch_records_first_error env_second_batch_fails 1200 world_after_search "WE1" "1"
             1 (LibraryError "HTTP Error 500: Internal Server Error")).
  - reflexivity.
  - lia.
  - reflexivity.
  - reflexivity.
  - apply Nat.ltb_lt. reflexivity.
  - intros j Hj. replace j with 0%nat by lia. eexists. reflexivity.
  - reflexivity.
Defined.

Lemma fetch_records_requests_total_witness :
  exists reqs,
    calls (snd (fetch_records env_example 1200 world_after_search)) =
      calls world_after_search ++ reqs /\
    Forall (fun c => 0 < snd c <= 500) reqs /\
    fold_right Z.add 0 (map snd reqs) = 1200.
Proof.
  apply (fetch_records_requests_total env_example 1200 world_after_search "WE1" "1").
  - lia.
  - reflexivity.
  - reflexivity.
  - intros s r. eexists. reflexivity.
Defined.

Lemma save_csv_filtered_rows_witness :
  fst (save_csv env_example (filter_records example_records 500 2000) "out.csv" init_world)
    = Ok [("NC_1", 1200%nat, "first"); ("NC_3", 800%nat, "third")]%string /\
  exists r, In r example_records /\
            ("NC_3"%string, 800%nat, "third"%string) = (id r, seq_len r, description r) /\
            500 <= Z.of_nat (seq_len r) <= 2000.
Proof.
  assert (Hrun : fst (save_csv env_example (filter_records example_records 500 2000)
                        "out.csv" init_world)
                 = Ok [("NC_1", 1200%nat, "first"); ("NC_3", 800%nat, "third")]%string)
    by (vm_compute; reflexivity).
  split; [exact Hrun|].
  apply (save_csv_filtered_rows env_example example_records 500 2000 "out.csv" init_world
           _ insertion_sort_desc_incl Hrun).
  right. left. reflexivity.
Defined.

Lemma save_csv_file_reads_back_witness :
  write_file env_example "out.csv"
    (CsvText (to_csv_text [("NC_1", 1200%nat, "first"); ("NC_3", 800%nat, "third");
                           ("NC_2", 300%nat, "second")]%string)) = Ok tt /\
  files (mkWorld None no_attrs [] [] ["out.csv"%string] [] 1 []) =
    files init_world ++ ["out.csv"%string] /\
  read_table (to_csv_text [("NC_1", 1200%nat, "first"); ("NC_3", 800%nat, "third");
                           ("NC_2", 300%nat, "second")]%string) =
    Some [("NC_1", 1200%nat, "first"); ("NC_3", 800%nat, "third");
          ("NC_2", 300%nat, "second")]%string.
Proof.
  apply (save_csv_file_reads_back env_example example_records "out.csv" init_world
           (mkWorld None no_attrs [] [] ["out.csv"%string] [] 1 [])).
  - exact insertion_sort_desc_incl.
  - repeat (apply Forall_cons; [split; right; vm_compute; intuition discriminate|]).
    apply Forall_nil.
  - vm_compute. reflexivity.
Defined.

Lemma main_success_witness :
  exists w',
    main env_example "me@example.org" "key" "562" "500" "1500" init_world = (Ok tt, w') /\
    files w' = files init_world ++ [("taxid_" ++ "562" ++ "_filtered.csv")%string;
                                    ("taxid_" ++ "562" ++ "_plot.png")%string] /\
    figs w' = figs init_world /\
    calls w' = calls init_world ++ [(0, 500); (500, 500)] /\
    stdout w' = stdout init_world ++
      ["Enter NCBI email: "; "Enter NCBI API key: "; "Enter TaxID: ";
       "Min sequence length: "; "Max sequence length: ";
       "Organism: " ++ "Escherichia coli";
       "Fetching up to 1000 records out of " ++ str_Z 1200 ++ " available...";
       "Saved " ++ str_Z (Z.of_nat (List.length (filter_records (example_records ++ []) 500 1500))) ++
         " records to " ++ "taxid_" ++ "562" ++ "_filtered.csv";
       "Plot saved as " ++ "taxid_" ++ "562" ++ "_plot.png"]%string.
Proof.
  apply (main_success env_example "me@example.org" "key" "562" "500" "1500" init_world
           500 1500 "Escherichia coli" "1200" "WE1" "1" 1200 example_records []).
  - reflexivity.
  - reflexivity.
  - split; [exists []; reflexivity|]. split; reflexivity.
  - lia.
  - reflexivity.
  - reflexivity.
  - simpl. discriminate.
  - intros path data. reflexivity.
Defined.
